(** * docx_parser: the keyword-driven field extraction of [DocxParser]

    A shallow embedding of [src/docx_parser.py].  Python strings are lists of
    Unicode code points, Python floats are binary64 primitive floats, the
    dictionaries the extractors return are finite maps with string keys, and
    the one operation of the file that can raise ([int] of a float) returns
    in an error monad. *)

From Stdlib Require Import ZArith List Bool Lia Ascii String Floats.
From stdpp Require Import base option gmap strings.

Import ListNotations.
Local Open Scope Z_scope.

(** ** Python strings *)

(** A [str] is a sequence of code points. *)
Definition pystr := list Z.

(** Decoding of the UTF-8 bytes of a literal of this file, so that the labels
    below can be written as they are in the source. *)
Fixpoint utf8_decode (bs : list Z) : pystr :=
  match bs with
  | [] => []
  | b0 :: r0 =>
    if b0 <? 128 then b0 :: utf8_decode r0
    else match r0 with
    | [] => []
    | b1 :: r1 =>
      if b0 <? 224 then
        (Z.lor (Z.shiftl (Z.land b0 31) 6) (Z.land b1 63)) :: utf8_decode r1
      else match r1 with
      | [] => []
      | b2 :: r2 =>
        if b0 <? 240 then
          (Z.lor (Z.shiftl (Z.land b0 15) 12)
             (Z.lor (Z.shiftl (Z.land b1 63) 6) (Z.land b2 63))) :: utf8_decode r2
        else match r2 with
        | [] => []
        | b3 :: r3 =>
          (Z.lor (Z.shiftl (Z.land b0 7) 18)
             (Z.lor (Z.shiftl (Z.land b1 63) 12)
                (Z.lor (Z.shiftl (Z.land b2 63) 6) (Z.land b3 63)))) :: utf8_decode r3
        end
      end
    end
  end.

Definition u (s : string) : pystr :=
  utf8_decode (List.map (fun a => Z.of_N (N_of_ascii a)) (list_ascii_of_string s)).

Definition nl : Z := 10.

(** ** Character classes of the regex engine *)

(** [\s] on a [str] pattern: the code points for which [str.isspace] holds. *)
Definition uni_isspace (c : Z) : bool :=
  ((9 <=? c) && (c <=? 13)) || ((28 <=? c) && (c <=? 32))
  || (c =? 133) || (c =? 160) || (c =? 5760)
  || ((8192 <=? c) && (c <=? 8202))
  || (c =? 8232) || (c =? 8233) || (c =? 8239) || (c =? 8287) || (c =? 12288).

(** First code point of every block of ten decimal digits (category Nd of
    Unicode 14, the table of CPython 3.11). *)
Definition decimal_blocks : list Z :=
  [ 0x30; 0x660; 0x6f0; 0x7c0; 0x966; 0x9e6; 0xa66; 0xae6; 0xb66; 0xbe6;
    0xc66; 0xce6; 0xd66; 0xde6; 0xe50; 0xed0; 0xf20; 0x1040; 0x1090; 0x17e0;
    0x1810; 0x1946; 0x19d0; 0x1a80; 0x1a90; 0x1b50; 0x1bb0; 0x1c40; 0x1c50;
    0xa620; 0xa8d0; 0xa900; 0xa9d0; 0xa9f0; 0xaa50; 0xabf0; 0xff10; 0x104a0;
    0x10d30; 0x11066; 0x110f0; 0x11136; 0x111d0; 0x112f0; 0x11450; 0x114d0;
    0x11650; 0x116c0; 0x11730; 0x118e0; 0x11950; 0x11c50; 0x11d50; 0x11da0;
    0x16a60; 0x16ac0; 0x16b50; 0x1d7ce; 0x1d7d8; 0x1d7e2; 0x1d7ec; 0x1d7f6;
    0x1e140; 0x1e2f0; 0x1e950; 0x1fbf0 ].

(** [\d] on a [str] pattern: any Unicode decimal digit, not only [0-9]. *)
Definition uni_isdecimal (c : Z) : bool :=
  existsb (fun b => (b <=? c) && (c <=? b + 9)) decimal_blocks.

(** [[:：]]: the colon and the fullwidth colon. *)
Definition is_colon (c : Z) : bool := (c =? 58) || (c =? 65306).

(** [.] without DOTALL: anything but a line feed. *)
Definition is_dot (c : Z) : bool := negb (c =? nl).

(** [[\d.,]]. *)
Definition is_number_char (c : Z) : bool :=
  uni_isdecimal c || (c =? 46) || (c =? 44).

(** Characters with a meaning of their own in a pattern.  A label without
    them, interpolated into a pattern, stands for itself. *)
Definition regex_special (c : Z) : bool :=
  existsb (Z.eqb c) (u ".^$*+?{}[]\|()").

Definition plain_label (kw : pystr) : bool := forallb (fun c => negb (regex_special c)) kw.

(** ** A backtracking matcher for the patterns of the file

    Every piece takes the continuation [k] that matches what follows it, and
    the remaining input; [None] is failure and makes the piece before it try
    its next alternative, in the order the engine tries them. *)

Section Matcher.
Context {R : Type}.

(** the engine's test of a literal of the pattern against a character of
    the text under IGNORECASE *)
Variable ieq : Z -> Z -> bool.

Definition first_of (a b : option R) : option R :=
  match a with Some r => Some r | None => b end.

(** a literal, ignoring case *)
Definition lit_ic (c : Z) (k : pystr -> option R) (s : pystr) : option R :=
  match s with
  | x :: s' => if ieq c x then k s' else None
  | [] => None
  end.

(** a literal string, ignoring case *)
Fixpoint lits_ic (kw : pystr) (k : pystr -> option R) (s : pystr) : option R :=
  match kw with
  | [] => k s
  | c :: kw' => lit_ic c (lits_ic kw' k) s
  end.

(** [cls*], greedy: the longest run first, then shorter ones *)
Fixpoint star (cls : Z -> bool) (k : pystr -> option R) (s : pystr) : option R :=
  match s with
  | x :: s' => if cls x then first_of (star cls k s') (k s) else k s
  | [] => k []
  end.

(** [cls?], greedy: with the character first, then without *)
Definition opt (cls : Z -> bool) (k : pystr -> option R) (s : pystr) : option R :=
  match s with
  | x :: s' => if cls x then first_of (k s') (k s) else k s
  | [] => k []
  end.

(** [(cls+?)], lazy and capturing: the shortest run first; the
    continuation receives the captured text *)
Fixpoint lazy_plus (cls : Z -> bool) (acc : pystr)
    (k : pystr -> pystr -> option R) (s : pystr) : option R :=
  match s with
  | x :: s' =>
      if cls x then first_of (k (acc ++ [x]) s') (lazy_plus cls (acc ++ [x]) k s')
      else None
  | [] => None
  end.

(** [\n] *)
Definition line_feed (k : pystr -> option R) (s : pystr) : option R :=
  match s with
  | x :: s' => if x =? nl then k s' else None
  | [] => None
  end.

(** [$] without MULTILINE: at the end of the string, or before a line feed
    that ends the string *)
Definition dollar (k : pystr -> option R) (s : pystr) : option R :=
  match s with
  | [] => k s
  | [x] => if x =? nl then k s else None
  | _ => None
  end.

(** [re.search]: the leftmost position at which the anchored matcher [m]
    succeeds, the end of the string included *)
Fixpoint re_search (m : pystr -> option R) (s : pystr) : option R :=
  match m s with
  | Some r => Some r
  | None => match s with
            | [] => None
            | _ :: s' => re_search m s'
            end
  end.
End Matcher.

(** ** Python values *)

(** The two kinds of number the file computes with. *)
Inductive number :=
  | Int (z : Z)
  | Float (f : float).

(** What a dictionary of the file holds. *)
#[warnings="-register-all"]
Inductive PyVal :=
  | VNone
  | VStr (s : pystr)
  | VNum (n : number)
  | VDict (d : gmap string PyVal).

(** The exceptions [int] raises on a float that is not finite. *)
Inductive pyexn := OverflowError | ValueError.

Inductive result (A : Type) :=
  | Ok (a : A)
  | Raise (e : pyexn).
Arguments Ok {A} a.
Arguments Raise {A} e.

Definition bind {A B : Type} (r : result A) (f : A -> result B) : result B :=
  match r with
  | Ok a => f a
  | Raise e => Raise e
  end.

Notation "x <- r ;; k" := (bind r (fun x => k))
  (at level 100, r at next level, right associativity).

(** [int(x)]: an [int] is kept, a finite float is truncated towards zero,
    an infinity raises OverflowError and a NaN raises ValueError. *)
Definition py_int (x : number) : result Z :=
  match x with
  | Int z => Ok z
  | Float f =>
      match Prim2SF f with
      | S754_zero _ => Ok 0
      | S754_infinity _ => Raise OverflowError
      | S754_nan => Raise ValueError
      | S754_finite s m e => Ok (cond_Zopp s (Z.shiftl (Z.pos m) e))
      end
  end.

(** [v or d] on an optional string: [None] and the empty string are false. *)
Definition py_or (v : option pystr) (d : pystr) : pystr :=
  match v with
  | Some (c :: s) => c :: s
  | _ => d
  end.

(** [re.findall] of a one-class pattern [[cls]+]: the maximal runs of [cls],
    left to right; [cur] is the run being read. *)
Fixpoint findall_runs (cls : Z -> bool) (cur : pystr) (s : pystr) : list pystr :=
  match s with
  | [] => match cur with [] => [] | _ => [cur] end
  | c :: s' =>
      if cls c then findall_runs cls (cur ++ [c]) s'
      else match cur with
           | [] => findall_runs cls [] s'
           | _ => cur :: findall_runs cls [] s'
           end
  end.

(** ** The parser object *)

(** What [__init__] captures: the text of the paragraphs and the tables. *)
Record DocxParser := {
  text_content : pystr;
  tables : list (list (list pystr))
}.

Section Parser.
(** [re.IGNORECASE] on one pattern character and one text character *)
Variable ieq : Z -> Z -> bool.
(** [src.utils.clean_text] and [src.utils.parse_number] *)
Variable clean_text : pystr -> pystr.
Variable parse_number : pystr -> float.

(** The pattern of line 56 anchored at the head of [s]:
    [{keyword}\s*[:：]?\s*(.+?)(?:\n|$)], giving [group(1)]. *)
Definition keyword_regex (keyword : pystr) (s : pystr) : option pystr :=
  lits_ic ieq keyword
    (star uni_isspace
      (opt is_colon
        (star uni_isspace
          (lazy_plus is_dot []
            (fun g1 rest =>
               first_of (line_feed (fun _ => Some g1) rest)
                        (dollar (fun _ => Some g1) rest)))))) s.

(** [pattern] is given by what [re.search(pattern, value)] captures in
    its group 1; no caller passes one. *)
Fixpoint _find_value_after_keyword (self : DocxParser) (keywords : list pystr)
    (pattern : option (pystr -> option pystr)) : option pystr :=
  match keywords with
  | [] => None
  | keyword :: keywords' =>
      match re_search (keyword_regex keyword) (text_content self) with
      | Some g1 =>
          let value := clean_text g1 in
          match pattern with
          | Some search_pattern =>
              match search_pattern value with
              | Some p1 => Some p1
              | None => Some value
              end
          | None => Some value
          end
      | None => _find_value_after_keyword self keywords' pattern
      end
  end.

Definition _find_number_after_keyword (self : DocxParser) (keywords : list pystr) : float :=
  match _find_value_after_keyword self keywords None with
  | Some (c :: v) =>
      match findall_runs is_number_char [] (c :: v) with
      | number0 :: _ => parse_number number0
      | [] => 0%float
      end
  | _ => 0%float
  end.

Definition customer_name_keywords : list pystr :=
  [u "Họ và tên"; u "Tên khách hàng"; u "Khách hàng"; u "Họ tên"].
Definition customer_cccd_keywords : list pystr :=
  [u "CCCD"; u "CMND"; u "Số CCCD"; u "Số CMND"; u "Chứng minh nhân dân"].
Definition customer_address_keywords : list pystr :=
  [u "Địa chỉ"; u "Địa chỉ thường trú"; u "Nơi cư trú"; u "Chỗ ở"].
Definition customer_phone_keywords : list pystr :=
  [u "Số điện thoại"; u "Điện thoại"; u "SĐT"; u "Phone"].

Definition extract_customer_info (self : DocxParser) : gmap string PyVal :=
  {[ "name" := VStr (py_or (_find_value_after_keyword self customer_name_keywords None) []);
     "cccd" := VStr (py_or (_find_value_after_keyword self customer_cccd_keywords None) []);
     "address" := VStr (py_or (_find_value_after_keyword self customer_address_keywords None) []);
     "phone" := VStr (py_or (_find_value_after_keyword self customer_phone_keywords None) []) ]}.

Definition purpose_keywords : list pystr :=
  [u "Mục đích vay"; u "Mục đích sử dụng vốn"; u "Mục đích"; u "Vay để"; u "Sử dụng vốn để"].
Definition total_need_keywords : list pystr :=
  [u "Tổng nhu cầu vốn"; u "Nhu cầu vốn"; u "Tổng vốn cần"; u "Tổng mức đầu tư"; u "Vốn đầu tư"].
Definition equity_keywords : list pystr :=
  [u "Vốn đối ứng"; u "Vốn tự có"; u "Nguồn vốn tự có"; u "Vốn chủ sở hữu"].
Definition loan_amount_keywords : list pystr :=
  [u "Số tiền vay"; u "Vốn vay"; u "Hạn mức vay"; u "Dư nợ vay"].
Definition interest_rate_keywords : list pystr :=
  [u "Lãi suất"; u "Lãi suất vay"; u "Lãi suất cho vay"; u "LS"].
Definition loan_term_keywords : list pystr :=
  [u "Thời gian vay"; u "Thời hạn vay"; u "Kỳ hạn"; u "Thời hạn"].

Definition extract_loan_info (self : DocxParser) : result (gmap string PyVal) :=
  let purpose := py_or (_find_value_after_keyword self purpose_keywords None) (u "Kinh doanh") in
  let total_need := _find_number_after_keyword self total_need_keywords in
  let equity := _find_number_after_keyword self equity_keywords in
  let loan_amount := _find_number_after_keyword self loan_amount_keywords in
  let loan_amount :=
    if (loan_amount =? 0)%float && (0 <? total_need)%float
    then (total_need - equity)%float else loan_amount in
  let interest_rate := _find_number_after_keyword self interest_rate_keywords in
  let interest_rate := if (interest_rate =? 0)%float then 8.5%float else interest_rate in
  let loan_term := _find_number_after_keyword self loan_term_keywords in
  let loan_term := if (loan_term =? 0)%float then Int 120 else Float loan_term in
  let equity_ratio :=
    if (0 <? total_need)%float then Float (equity / total_need * 100)%float else Int 0 in
  months <- py_int loan_term ;;
  Ok ({[ "purpose" := VStr purpose;
         "total_need" := VNum (Float total_need);
         "equity" := VNum (Float equity);
         "loan_amount" := VNum (Float loan_amount);
         "equity_ratio" := VNum equity_ratio;
         "interest_rate" := VNum (Float interest_rate);
         "loan_term" := VNum (Int months);
         "payment_frequency" := VStr (u "Tháng") ]} : gmap string PyVal).

Definition asset_type_keywords : list pystr :=
  [u "Loại tài sản"; u "Tài sản"; u "TSBĐ"; u "Loại TSBĐ"].
Definition market_value_keywords : list pystr :=
  [u "Giá trị thị trường"; u "Giá thị trường"; u "Giá trị"; u "Trị giá tài sản"].
Definition asset_address_keywords : list pystr :=
  [u "Địa chỉ tài sản"; u "Vị trí"; u "Địa điểm"; u "Tọa lạc tại"].
Definition ltv_keywords : list pystr :=
  [u "LTV"; u "Tỷ lệ cho vay"; u "Tỷ lệ LTV"].
Definition legal_docs_keywords : list pystr :=
  [u "Giấy tờ pháp lý"; u "Pháp lý"; u "Giấy tờ"; u "Sổ đỏ"].

Definition extract_collateral_info (self : DocxParser) : gmap string PyVal :=
  let asset_type := py_or (_find_value_after_keyword self asset_type_keywords None) (u "Bất động sản") in
  let market_value := _find_number_after_keyword self market_value_keywords in
  let asset_address := py_or (_find_value_after_keyword self asset_address_keywords None) [] in
  let ltv := _find_number_after_keyword self ltv_keywords in
  let ltv := if (ltv =? 0)%float then 70.0%float else ltv in
  let legal_docs :=
    py_or (_find_value_after_keyword self legal_docs_keywords None)
          (u "Sổ đỏ/Giấy chứng nhận quyền sử dụng đất") in
  {[ "asset_type" := VStr asset_type;
     "market_value" := VNum (Float market_value);
     "asset_address" := VStr asset_address;
     "ltv" := VNum (Float ltv);
     "legal_docs" := VStr legal_docs ]}.

Definition monthly_income_keywords : list pystr :=
  [u "Thu nhập tháng"; u "Thu nhập hàng tháng"; u "Doanh thu tháng"].
Definition monthly_expense_keywords : list pystr :=
  [u "Chi phí tháng"; u "Chi phí hàng tháng"; u "Chi phí"].
Definition other_debt_keywords : list pystr :=
  [u "Nợ khác"; u "Công nợ khác"; u "Nghĩa vụ nợ khác"].

Definition extract_financial_info (self : DocxParser) : gmap string PyVal :=
  let monthly_income := _find_number_after_keyword self monthly_income_keywords in
  let monthly_expense := _find_number_after_keyword self monthly_expense_keywords in
  let other_debt := _find_number_after_keyword self other_debt_keywords in
  {[ "monthly_income" := VNum (Float monthly_income);
     "monthly_expense" := VNum (Float monthly_expense);
     "other_debt" := VNum (Float other_debt) ]}.

(** The dictionary display evaluates the four extractors in this order;
    a raise in one of them leaves [parse_full_document] at once. *)
Definition parse_full_document (self : DocxParser) : result (gmap string PyVal) :=
  let customer_info := extract_customer_info self in
  loan_info <- extract_loan_info self ;;
  let collateral_info := extract_collateral_info self in
  let financial_info := extract_financial_info self in
  Ok ({[ "customer_info" := VDict customer_info;
         "loan_info" := VDict loan_info;
         "collateral_info" := VDict collateral_info;
         "financial_info" := VDict financial_info;
         "raw_text" := VStr (text_content self) ]} : gmap string PyVal).
End Parser.

(** ** The regex engine and [src.utils] on concrete inputs

    The theorems below hold for every case-insensitive character test and
    every [clean_text] and [parse_number].  The examples need concrete ones. *)

Definition in_range (lo hi c : Z) : bool := (lo <=? c) && (c <=? hi).

(** Simple lower-case mapping on Basic Latin, Latin-1, Latin Extended-A,
    the letters O and U with horn, Latin Extended Additional, and the three
    signs that fold into them. *)
Definition latin_lower (c : Z) : Z :=
  if in_range 65 90 c then c + 32
  else if in_range 192 222 c && negb (c =? 215) then c + 32
  else if c =? 0x130 then 0x69
  else if c =? 0x178 then 0xff
  else if (in_range 0x100 0x137 c || in_range 0x14a 0x177 c) && Z.even c then c + 1
  else if (in_range 0x139 0x148 c || in_range 0x179 0x17e c) && Z.odd c then c + 1
  else if (c =? 0x1a0) || (c =? 0x1af) then c + 1
  else if c =? 0x39c then 0x3bc
  else if c =? 0x1e9e then 0xdf
  else if (in_range 0x1e00 0x1e95 c || in_range 0x1ea0 0x1eff c) && Z.even c then c + 1
  else if c =? 0x212a then 0x6b
  else if c =? 0x212b then 0xe5
  else c.

(** The characters of those blocks that the engine takes as cased although
    their lower case is themselves. *)
Definition latin_has_upper (c : Z) : bool :=
  in_range 97 122 c
  || (in_range 223 255 c && negb (c =? 247))
  || (c =? 0xb5) || (c =? 0x131) || (c =? 0x149) || (c =? 0x17f)
  || ((in_range 0x100 0x137 c || in_range 0x14a 0x177 c) && Z.odd c)
  || ((in_range 0x139 0x148 c || in_range 0x179 0x17e c) && Z.even c)
  || (c =? 0x1a1) || (c =? 0x1b0)
  || in_range 0x1e96 0x1e9b c
  || ((in_range 0x1e00 0x1e95 c || in_range 0x1ea0 0x1eff c) && Z.odd c).

Definition latin_iscased (c : Z) : bool :=
  negb (latin_lower c =? c) || latin_has_upper c.

(** The engine's extra equivalences between lower-case letters. *)
Definition latin_fix (lo lc : Z) : bool :=
  ((lo =? 0x69) && (lc =? 0x131)) || ((lo =? 0x131) && (lc =? 0x69))
  || ((lo =? 0x73) && (lc =? 0x17f)) || ((lo =? 0x17f) && (lc =? 0x73))
  || ((lo =? 0xb5) && (lc =? 0x3bc))
  || ((lo =? 0x1e61) && (lc =? 0x1e9b)) || ((lo =? 0x1e9b) && (lc =? 0x1e61)).

(** IGNORECASE for a pattern character [p] of the Latin blocks above
    against a text character [c]: a cased [p] is compared through the
    lower-case mapping, any other exactly. *)
Definition latin_ieq (p c : Z) : bool :=
  if latin_iscased p then
    (latin_lower c =? latin_lower p) || latin_fix (latin_lower p) (latin_lower c)
  else c =? p.

Definition join_with (sep : Z) (parts : list pystr) : pystr :=
  match parts with
  | [] => []
  | w :: ws => w ++ List.concat (List.map (fun x => sep :: x) ws)
  end.

(** Modelled from the spec: [src.utils.clean_text] is not in the sources.
    Spec 4.1: leading and trailing whitespace removed, internal whitespace
    runs collapsed; empty input gives empty output. *)
Definition clean_text_spec (raw : pystr) : pystr :=
  join_with 32 (findall_runs (fun c => negb (uni_isspace c)) [] raw).

Definition is_ascii_digit (c : Z) : bool := in_range 48 57 c.

Definition digits_to_Z (ds : pystr) : Z :=
  fold_left (fun acc c => 10 * acc + (c - 48)) ds 0.

(** The binary64 nearest to [n / 10^d], ties to even: the quotient is taken
    with more than 64 bits and a sticky last bit, then rounded. *)
Definition decimal_to_float (n d : Z) : float :=
  if n <=? 0 then 0%float
  else
    let den := 10 ^ d in
    let k := Z.max 0 (65 + Z.log2 den - Z.log2 n) in
    let q := (n * 2 ^ k) / den in
    let sticky := if (n * 2 ^ k) mod den =? 0 then 0 else 1 in
    SF2Prim (binary_normalize prec emax (2 * q + sticky) (- (k + 1)) false).

Fixpoint split_on (sep : Z) (cur : pystr) (s : pystr) : list pystr :=
  match s with
  | [] => [cur]
  | c :: s' => if c =? sep then cur :: split_on sep [] s' else split_on sep (cur ++ [c]) s'
  end.

Definition last_separator (t : pystr) : Z :=
  fold_left (fun acc c => if is_ascii_digit c then acc else c) t 0.

(** Modelled from the spec: [src.utils.parse_number] is not in the sources.
    Spec 4.2: characters other than digits and the two separators are
    stripped; with both separators the one that comes last is the decimal
    point and the other is grouping; with one kind of separator, exactly
    three digits after its last occurrence make it grouping, anything else
    the decimal point; no digits, or more than one decimal point, give 0. *)
Definition parse_number_spec (text : pystr) : float :=
  let t := List.filter (fun c => is_ascii_digit c || (c =? 46) || (c =? 44)) text in
  if negb (existsb is_ascii_digit t) then 0%float
  else
    let has_dot := existsb (Z.eqb 46) t in
    let has_comma := existsb (Z.eqb 44) t in
    let point := last_separator t in
    let grouping_only :=
      negb (has_dot && has_comma)
      && (Z.of_nat (length (List.last (split_on point [] t) [])) =? 3) in
    let t := List.filter (fun c => is_ascii_digit c || ((c =? point) && negb grouping_only)) t in
    match split_on point [] t with
    | [whole] => decimal_to_float (digits_to_Z whole) 0
    | [whole; frac] =>
        decimal_to_float (digits_to_Z (whole ++ frac)) (Z.of_nat (length frac))
    | _ => 0%float
    end.

(** A parser over the paragraphs [l], without tables. *)
Definition parser_of (l : list pystr) : DocxParser :=
  {| text_content := join_with nl l; tables := [] |}.


(** ** The opened document and the constructor

    What the docx library gives for an opened file, as far as the class
    reads it: the text of every paragraph, and the text of every cell of
    every row of every table. *)
Module docx.
Record Document := {
  paragraphs : list pystr;
  tables : list (list (list pystr))
}.
End docx.

(** [str.lstrip()], [str.rstrip()] and [str.strip()]: whitespace is what
    [str.isspace] accepts. *)
Fixpoint lstrip (s : pystr) : pystr :=
  match s with
  | c :: s' => if uni_isspace c then lstrip s' else s
  | [] => []
  end.

Definition rstrip (s : pystr) : pystr := rev (lstrip (rev s)).

Definition strip (s : pystr) : pystr := rstrip (lstrip s).

(** The list [full_text] that the loop of lines 27 to 29 builds. *)
Fixpoint full_text (paragraphs : list pystr) : list pystr :=
  match paragraphs with
  | [] => []
  | text :: paragraphs' =>
      match strip text with
      | [] => full_text paragraphs'
      | c :: t => (c :: t) :: full_text paragraphs'
      end
  end.

Definition _extract_all_text (doc : docx.Document) : pystr :=
  join_with nl (full_text (docx.paragraphs doc)).

Definition _extract_tables (doc : docx.Document) : list (list (list pystr)) :=
  List.map (fun table => List.map (fun row => List.map strip row) table) (docx.tables doc).

(** [__init__], from the opened document. *)
Definition __init__ (doc : docx.Document) : DocxParser :=
  {| text_content := _extract_all_text doc; tables := _extract_tables doc |}.

(** * Properties *)

(** ** The pieces of the matcher *)

Section MatcherFacts.
Context {R : Type}.
Variable ieq : Z -> Z -> bool.

(** [lab] is the label [kw] up to case, character by character *)
Definition same_label (kw lab : pystr) : Prop :=
  Forall2 (fun p c => ieq p c = true) kw lab.

Lemma first_of_Some (a b : option R) r :
  first_of a b = Some r -> a = Some r \/ (a = None /\ b = Some r).
Proof. destruct a; simpl; intros H; [left | right]; auto. Qed.

Lemma lits_ic_Some kw : forall (k : pystr -> option R) s r,
  lits_ic ieq kw k s = Some r ->
  exists lab rest, s = lab ++ rest /\ same_label kw lab /\ k rest = Some r.
Proof.
  induction kw as [|c kw IH]; intros k s r H; simpl in H.
  - exists [], s. repeat split; auto. constructor.
  - destruct s as [|x s]; simpl in H; [discriminate|].
    destruct (ieq c x) eqn:E; [|discriminate].
    destruct (IH _ _ _ H) as (lab & rest & -> & Hl & Hk).
    exists (x :: lab), rest. repeat split; auto. constructor; auto.
Qed.

Lemma star_Some cls (k : pystr -> option R) : forall s r,
  star cls k s = Some r ->
  exists w rest, s = w ++ rest /\ forallb cls w = true /\ k rest = Some r.
Proof.
  induction s as [|x s IH]; intros r H; simpl in H.
  - exists [], []. auto.
  - destruct (cls x) eqn:E.
    + destruct (first_of_Some _ _ _ H) as [H1 | [_ H1]].
      * destruct (IH _ H1) as (w & rest & -> & Hw & Hk).
        exists (x :: w), rest. simpl. rewrite E, Hw. auto.
      * exists [], (x :: s). auto.
    + exists [], (x :: s). auto.
Qed.

Lemma opt_Some cls (k : pystr -> option R) s r :
  opt cls k s = Some r ->
  exists w rest, s = w ++ rest /\ (w = [] \/ exists c, w = [c] /\ cls c = true)
                 /\ k rest = Some r.
Proof.
  destruct s as [|x s]; simpl; intros H.
  - exists [], []. auto.
  - destruct (cls x) eqn:E.
    + destruct (first_of_Some _ _ _ H) as [H1 | [_ H1]].
      * exists [x], s. repeat split; eauto.
      * exists [], (x :: s). auto.
    + exists [], (x :: s). auto.
Qed.

Lemma lazy_plus_Some cls (k : pystr -> pystr -> option R) : forall s acc r,
  lazy_plus cls acc k s = Some r ->
  exists g rest, g <> [] /\ s = g ++ rest /\ forallb cls g = true
                 /\ k (acc ++ g) rest = Some r.
Proof.
  induction s as [|x s IH]; intros acc r H; simpl in H; [discriminate|].
  destruct (cls x) eqn:E; [|discriminate].
  destruct (first_of_Some _ _ _ H) as [H1 | [_ H1]].
  - exists [x], s. repeat split; auto. simpl. rewrite E. auto.
  - destruct (IH _ _ H1) as (g & rest & Hg & -> & Hc & Hk).
    exists (x :: g), rest. repeat split; auto.
    + simpl. rewrite E, Hc. auto.
    + rewrite <- Hk. f_equal. rewrite <- app_assoc. reflexivity.
Qed.

(** [re.search] finds the leftmost position where [m] succeeds. *)
Lemma re_search_Some (m : pystr -> option R) : forall s r,
  re_search m s = Some r ->
  exists i, (i <= length s)%nat /\ m (drop i s) = Some r
            /\ forall j, (j < i)%nat -> m (drop j s) = None.
Proof.
  induction s as [|x s IH]; intros r H; simpl in H.
  - destruct (m []) eqn:E; [|discriminate]. injection H as ->.
    exists 0%nat. repeat split; auto. intros j Hj. lia.
  - destruct (m (x :: s)) eqn:E.
    + injection H as ->. exists 0%nat. repeat split; auto.
      * simpl. lia.
      * intros j Hj. lia.
    + destruct (IH _ H) as (i & Hi & Hm & Hlt).
      exists (S i). repeat split; auto.
      * simpl. lia.
      * intros [|j] Hj; simpl; auto. apply Hlt. lia.
Qed.

Lemma re_search_None (m : pystr -> option R) : forall s,
  re_search m s = None -> forall i, m (drop i s) = None.
Proof.
  induction s as [|x s IH]; intros H i; simpl in H.
  - destruct (m []) eqn:E; [discriminate|]. destruct i; simpl; auto.
  - destruct (m (x :: s)) eqn:E; [discriminate|].
    destruct i; simpl; auto.
Qed.

End MatcherFacts.

(** ** The keyword locator *)

(** What is left of the line at the head of [s]. *)
Fixpoint rest_of_line (s : pystr) : pystr :=
  match s with
  | [] => []
  | c :: s' => if is_dot c then c :: rest_of_line s' else []
  end.

Section LocatorFacts.
Variable ieq : Z -> Z -> bool.
Variable clean_text : pystr -> pystr.

(** the pattern of [kw] matches at position [i] of [text] and captures [g] *)
Definition occurs_at (kw text : pystr) (i : nat) (g : pystr) : Prop :=
  (i <= length text)%nat /\ keyword_regex ieq kw (drop i text) = Some g.

(** the pattern of [kw] matches somewhere in [text] *)
Definition matches (kw text : pystr) : Prop := exists i g, occurs_at kw text i g.

(** [i] is the first position of [text], from the top, where it matches *)
Definition first_match (kw text : pystr) (i : nat) (g : pystr) : Prop :=
  occurs_at kw text i g /\ forall j g', (j < i)%nat -> ~ occurs_at kw text j g'.

Lemma search_finds_first_match kw text g :
  re_search (keyword_regex ieq kw) text = Some g <-> exists i, first_match kw text i g.
Proof.
  split.
  - intros H. destruct (re_search_Some _ _ _ H) as (i & Hi & Hm & Hlt).
    exists i. split; [split; auto|]. intros j g' Hj [_ Hc]. rewrite (Hlt j Hj) in Hc. discriminate.
  - intros (i & [Hi Hm] & Hfirst).
    destruct (re_search (keyword_regex ieq kw) text) as [g'|] eqn:E.
    + destruct (re_search_Some _ _ _ E) as (i' & Hi' & Hm' & Hlt').
      destruct (Nat.lt_trichotomy i i') as [Hlt | [-> | Hgt]].
      * rewrite (Hlt' i Hlt) in Hm. discriminate.
      * congruence.
      * exfalso. apply (Hfirst i' g' Hgt). split; auto.
    + rewrite (re_search_None _ _ E i) in Hm. discriminate.
Qed.

Lemma search_fails_without_match kw text :
  re_search (keyword_regex ieq kw) text = None <-> ~ matches kw text.
Proof.
  split.
  - intros H (i & g & _ & Hm). rewrite (re_search_None _ _ H i) in Hm. discriminate.
  - intros Hn. destruct (re_search (keyword_regex ieq kw) text) as [g|] eqn:E; auto.
    exfalso. apply Hn. destruct (re_search_Some _ _ _ E) as (i & Hi & Hm & _).
    exists i, g. split; auto.
Qed.

Lemma find_value_skips self before : forall rest,
  Forall (fun k => ~ matches k (text_content self)) before ->
  _find_value_after_keyword ieq clean_text self (before ++ rest) None
  = _find_value_after_keyword ieq clean_text self rest None.
Proof.
  induction before as [|k before IH]; intros rest H; simpl; auto.
  inversion H; subst.
  rewrite (proj2 (search_fails_without_match k _)); auto.
Qed.

Lemma find_value_hit self kw after i g :
  first_match kw (text_content self) i g ->
  _find_value_after_keyword ieq clean_text self (kw :: after) None = Some (clean_text g).
Proof.
  intros H. simpl. rewrite (proj2 (search_finds_first_match kw _ g)); eauto.
Qed.

Lemma find_value_None self : forall keywords,
  _find_value_after_keyword ieq clean_text self keywords None = None
  <-> Forall (fun k => ~ matches k (text_content self)) keywords.
Proof.
  induction keywords as [|k ks IH]; simpl.
  - split; auto.
  - destruct (re_search (keyword_regex ieq k) (text_content self)) as [g|] eqn:E.
    + split; [discriminate|]. intros H. inversion H; subst.
      apply search_fails_without_match in H2. congruence.
    + rewrite IH. split.
      * intros H. constructor; auto. apply search_fails_without_match; auto.
      * intros H. inversion H; auto.
Qed.

Lemma find_value_Some self : forall keywords v,
  _find_value_after_keyword ieq clean_text self keywords None = Some v ->
  exists before kw after i g,
    keywords = before ++ kw :: after
    /\ Forall (fun k => ~ matches k (text_content self)) before
    /\ first_match kw (text_content self) i g
    /\ v = clean_text g.
Proof.
  induction keywords as [|k ks IH]; simpl; intros v H; [discriminate|].
  destruct (re_search (keyword_regex ieq k) (text_content self)) as [g|] eqn:E.
  - injection H as <-. apply search_finds_first_match in E. destruct E as (i & Hi).
    exists [], k, ks, i, g. repeat split; auto; apply Hi.
  - destruct (IH _ H) as (before & kw & after & i & g & -> & Hb & Hf & ->).
    exists (k :: before), kw, after, i, g. repeat split; auto; try apply Hf.
    constructor; auto. apply search_fails_without_match; auto.
Qed.

(** The shape of a match of the pattern of line 56 at the head of [s]. *)
Lemma keyword_regex_shape kw s g :
  keyword_regex ieq kw s = Some g ->
  exists lab sep1 col sep2 rest,
    s = lab ++ sep1 ++ col ++ sep2 ++ g ++ rest
    /\ same_label ieq kw lab
    /\ forallb uni_isspace sep1 = true
    /\ (col = [] \/ exists c, col = [c] /\ is_colon c = true)
    /\ forallb uni_isspace sep2 = true
    /\ g <> [] /\ forallb is_dot g = true
    /\ (rest = [] \/ exists rest', rest = nl :: rest').
Proof.
  unfold keyword_regex. intros H.
  destruct (lits_ic_Some _ _ _ _ _ H) as (lab & r0 & -> & Hlab & H0).
  destruct (star_Some _ _ _ _ H0) as (sep1 & r1 & -> & Hs1 & H1).
  destruct (opt_Some _ _ _ _ H1) as (col & r2 & -> & Hcol & H2).
  destruct (star_Some _ _ _ _ H2) as (sep2 & r3 & -> & Hs2 & H3).
  destruct (lazy_plus_Some _ _ _ _ _ H3) as (g' & rest & Hne & -> & Hdot & H4).
  simpl in H4.
  assert (g' = g /\ (rest = [] \/ exists rest', rest = nl :: rest')) as [-> Hrest].
  { destruct (first_of_Some _ _ _ H4) as [Hl | [_ Hd]].
    - destruct rest as [|x rest]; simpl in Hl; [discriminate|].
      destruct (x =? nl) eqn:E; [|discriminate].
      apply Z.eqb_eq in E. subst x. split; [congruence | right; eauto].
    - destruct rest as [|x [|y rest]]; simpl in Hd; try discriminate.
      + split; [congruence | auto].
      + destruct (x =? nl) eqn:E; [|discriminate].
        apply Z.eqb_eq in E. subst x. split; [congruence | right; eauto]. }
  exists lab, sep1, col, sep2, rest. repeat split; auto.
Qed.

End LocatorFacts.

Section Locator.
Variable ieq : Z -> Z -> bool.
Variable clean_text : pystr -> pystr.

(** C1. The keyword locator takes the labels in list order and searches the
    whole text for each before it moves on.  It returns a value exactly when
    some label of the list matches somewhere: the value is the normalised
    capture of the first match, from the top, of the first label that
    matches anywhere.  The labels after that one have no part in the result,
    and not-found is returned exactly when no label matches anywhere.  The
    labels are free of pattern syntax, as every label of the file is. *)
Theorem locate_first_label_first_occurrence (self : DocxParser) (keywords : list pystr) :
  Forall (fun kw => plain_label kw = true) keywords ->
  (forall v,
     _find_value_after_keyword ieq clean_text self keywords None = Some v <->
     exists before kw after i g,
       keywords = before ++ kw :: after
       /\ Forall (fun k => ~ matches ieq k (text_content self)) before
       /\ first_match ieq kw (text_content self) i g
       /\ v = clean_text g)
  /\ (_find_value_after_keyword ieq clean_text self keywords None = None <->
      Forall (fun k => ~ matches ieq k (text_content self)) keywords)
  /\ (forall before kw after after',
        keywords = before ++ kw :: after ->
        Forall (fun k => ~ matches ieq k (text_content self)) before ->
        matches ieq kw (text_content self) ->
        _find_value_after_keyword ieq clean_text self (before ++ kw :: after') None
        = _find_value_after_keyword ieq clean_text self keywords None).
Proof.
  intros _. split; [|split].
  - intros v. split.
    + apply find_value_Some.
    + intros (before & kw & after & i & g & -> & Hb & Hf & ->).
      rewrite find_value_skips by assumption. eapply find_value_hit; eauto.
  - apply find_value_None.
  - intros before kw after after' -> Hb Hm.
    destruct (re_search (keyword_regex ieq kw) (text_content self)) as [g|] eqn:E.
    + apply search_finds_first_match in E. destruct E as (i & Hf).
      rewrite !find_value_skips by assumption.
      rewrite (find_value_hit _ _ _ _ after' i g Hf).
      rewrite (find_value_hit _ _ _ _ after i g Hf). reflexivity.
    + apply search_fails_without_match in E. contradiction.
Qed.

End Locator.


(** ** The numeric locator *)

(** [post] does not continue a run of [cls] *)
Definition run_ends (cls : Z -> bool) (post : pystr) : Prop :=
  post = [] \/ exists c post', post = c :: post' /\ cls c = false.

(** [r] is the first maximal non-empty run of [cls] in [v] *)
Definition first_run (cls : Z -> bool) (v r : pystr) : Prop :=
  exists pre post,
    v = pre ++ r ++ post
    /\ forallb (fun c => negb (cls c)) pre = true
    /\ r <> [] /\ forallb cls r = true
    /\ run_ends cls post.

(** [[0-9.,]], the class the specification names *)
Definition is_ascii_number_char (c : Z) : bool :=
  is_ascii_digit c || (c =? 46) || (c =? 44).

Lemma findall_runs_head cls : forall s cur r rs,
  findall_runs cls cur s = r :: rs ->
  (cur <> [] -> exists w post,
      s = w ++ post /\ r = cur ++ w /\ forallb cls w = true /\ run_ends cls post)
  /\ (cur = [] -> first_run cls s r).
Proof.
  unfold first_run, run_ends.
  induction s as [|c s IH]; intros cur r rs H; simpl in H.
  - destruct cur as [|x cur]; [discriminate|]. injection H as <- <-.
    split; [|discriminate]. intros _. exists [], []. simpl. rewrite app_nil_r. auto.
  - destruct (cls c) eqn:E.
    + destruct (IH _ _ _ H) as [IH1 _].
      destruct IH1 as (w & post & -> & -> & Hw & Hp); [destruct cur; discriminate|].
      split.
      * intros _. exists (c :: w), post. rewrite <- app_assoc. simpl. rewrite E, Hw. auto.
      * intros ->. exists [], post. simpl. rewrite E, Hw.
        split; [reflexivity|]. split; [reflexivity|]. split; [discriminate|]. auto.
    + destruct cur as [|x cur].
      * split; [intros Hc; contradiction|]. intros _.
        destruct (IH _ _ _ H) as [_ IH2].
        destruct (IH2 eq_refl) as (pre & post & -> & Hpre & Hne & Hr & Hp).
        exists (c :: pre), post. simpl. rewrite E, Hpre. auto.
      * injection H as <- <-. split; [|discriminate]. intros _.
        exists [], (c :: s). simpl. rewrite app_nil_r.
        split; [reflexivity|]. split; [reflexivity|]. split; [reflexivity|]. right. eauto.
Qed.

Lemma findall_runs_nil cls : forall s cur,
  findall_runs cls cur s = [] ->
  cur = [] /\ forallb (fun c => negb (cls c)) s = true.
Proof.
  induction s as [|c s IH]; intros cur H; simpl in H.
  - destruct cur; [auto | discriminate].
  - destruct (cls c) eqn:E.
    + destruct (IH _ H) as [Hc _]. destruct cur; discriminate.
    + destruct cur; [|discriminate]. destruct (IH _ H) as [_ Hs].
      split; auto. simpl. rewrite E, Hs. reflexivity.
Qed.

Section NumberLocator.
Variable ieq : Z -> Z -> bool.
Variable clean_text : pystr -> pystr.
Variable parse_number : pystr -> float.

Lemma find_number_not_found self keywords :
  _find_value_after_keyword ieq clean_text self keywords None = None ->
  _find_number_after_keyword ieq clean_text parse_number self keywords = 0%float.
Proof. unfold _find_number_after_keyword. intros ->. reflexivity. Qed.

Lemma find_number_no_match self keywords :
  Forall (fun k => ~ matches ieq k (text_content self)) keywords ->
  _find_number_after_keyword ieq clean_text parse_number self keywords = 0%float.
Proof. intros H. apply find_number_not_found, find_value_None, H. Qed.

(** C6, as the code has it.  The numeric locator calls the text locator and
    parses the first maximal run of [[\d.,]] of the located value, and only
    that run, where [\d] is any Unicode decimal digit; it returns 0 when the
    text locator finds nothing, when the located value is empty, and when
    the located value has no character of that class. *)
Theorem find_number_parses_first_run (self : DocxParser) (keywords : list pystr) :
  match _find_value_after_keyword ieq clean_text self keywords None with
  | None => _find_number_after_keyword ieq clean_text parse_number self keywords = 0%float
  | Some v =>
      (existsb is_number_char v = false ->
       _find_number_after_keyword ieq clean_text parse_number self keywords = 0%float)
      /\ (existsb is_number_char v = true ->
          exists r, first_run is_number_char v r
            /\ _find_number_after_keyword ieq clean_text parse_number self keywords
               = parse_number r)
  end.
Proof.
  unfold _find_number_after_keyword.
  destruct (_find_value_after_keyword ieq clean_text self keywords None) as [v|]; [|reflexivity].
  destruct v as [|c v]; [split; [reflexivity | discriminate]|].
  destruct (findall_runs is_number_char [] (c :: v)) as [|r rs] eqn:E.
  - split; [reflexivity|]. intros Hex.
    destruct (findall_runs_nil _ _ _ E) as [_ Hnone].
    exfalso. revert Hex Hnone. generalize (c :: v). clear.
    induction l as [|x l IH]; simpl; [discriminate|].
    destruct (is_number_char x); simpl; [discriminate | auto].
  - destruct (findall_runs_head _ _ _ _ _ E) as [_ Hrun]. specialize (Hrun eq_refl).
    split; [|eauto]. intros Hnone. exfalso.
    destruct Hrun as (pre & post & Hv & _ & Hne & Hr & _).
    rewrite Hv in Hnone. rewrite !existsb_app in Hnone.
    apply orb_false_iff in Hnone as [_ Hnone]. apply orb_false_iff in Hnone as [Hnone _].
    destruct r as [|x r]; [contradiction|]. simpl in *.
    apply andb_true_iff in Hr as [Hx _]. rewrite Hx in Hnone. discriminate.
Qed.
End NumberLocator.



(** ** Floats: comparison with zero, and [int] *)

Lemma float_eqb_zero (x : float) :
  (x =? 0)%float = match Prim2SF x with S754_zero _ => true | _ => false end.
Proof.
  rewrite FloatAxioms.eqb_spec. change (Prim2SF 0) with (S754_zero false).
  destruct (Prim2SF x) as [s|s| |s m e]; try destruct s; reflexivity.
Qed.

Lemma float_ltb_zero (x : float) :
  (0 <? x)%float
  = match Prim2SF x with
    | S754_finite false _ _ | S754_infinity false => true
    | _ => false
    end.
Proof.
  rewrite FloatAxioms.ltb_spec. change (Prim2SF 0) with (S754_zero false).
  destruct (Prim2SF x) as [s|s| |s m e]; try destruct s; reflexivity.
Qed.

Lemma float_ltb_neg (x : float) :
  (x <? 0)%float
  = match Prim2SF x with
    | S754_finite true _ _ | S754_infinity true => true
    | _ => false
    end.
Proof.
  rewrite FloatAxioms.ltb_spec. change (Prim2SF 0) with (S754_zero false).
  destruct (Prim2SF x) as [s|s| |s m e]; try destruct s; reflexivity.
Qed.

Lemma digits2_pos_bound (m : positive) : Z.pos m < 2 ^ Z.pos (digits2_pos m).
Proof.
  induction m as [m IH|m IH|]; simpl digits2_pos.
  - rewrite Pos2Z.inj_succ, Z.pow_succ_r by lia. lia.
  - rewrite Pos2Z.inj_succ, Z.pow_succ_r by lia. lia.
  - reflexivity.
Qed.

Lemma digits2_pos_low (m : positive) : 2 ^ (Z.pos (digits2_pos m) - 1) <= Z.pos m.
Proof.
  induction m as [m IH|m IH|]; simpl digits2_pos.
  - rewrite Pos2Z.inj_succ. replace (Z.succ (Z.pos (digits2_pos m)) - 1)
      with (Z.succ (Z.pos (digits2_pos m) - 1)) by lia.
    rewrite Z.pow_succ_r by lia. lia.
  - rewrite Pos2Z.inj_succ. replace (Z.succ (Z.pos (digits2_pos m)) - 1)
      with (Z.succ (Z.pos (digits2_pos m) - 1)) by lia.
    rewrite Z.pow_succ_r by lia. lia.
  - simpl. lia.
Qed.

(** A finite binary64 is canonical: at most 53 digits, exponent at least
    -1074, and 53 digits exactly above the least exponent. *)
Lemma valid_finite (x : float) s m e :
  Prim2SF x = S754_finite s m e ->
  Z.pos (digits2_pos m) <= 53 /\ -1074 <= e <= 971
  /\ (-1074 < e -> Z.pos (digits2_pos m) = 53).
Proof.
  intros H. pose proof (Prim2SF_valid x) as V. rewrite H in V.
  unfold valid_binary, bounded, canonical_mantissa, fexp, emin, prec, emax in V.
  apply andb_true_iff in V as [V1 V2].
  apply Z.eqb_eq in V1. apply Z.leb_le in V2. lia.
Qed.

(** [int] of a finite float is its integer part, towards zero. *)
Lemma py_int_truncates (x : float) s m e :
  Prim2SF x = S754_finite s m e ->
  exists q, py_int (Float x) = Ok (cond_Zopp s q)
    /\ q * 2 ^ Z.max 0 (- e) <= Z.pos m * 2 ^ Z.max 0 e < (q + 1) * 2 ^ Z.max 0 (- e).
Proof.
  intros H. simpl. rewrite H. exists (Z.shiftl (Z.pos m) e). split; [reflexivity|].
  destruct (Z.le_gt_cases 0 e) as [He | He].
  - rewrite Z.shiftl_mul_pow2 by lia.
    replace (Z.max 0 (- e)) with 0 by lia. replace (Z.max 0 e) with e by lia.
    simpl. lia.
  - rewrite Z.shiftl_div_pow2 by lia.
    replace (Z.max 0 (- e)) with (- e) by lia. replace (Z.max 0 e) with 0 by lia.
    assert (0 < 2 ^ (- e)) by (apply Z.pow_pos_nonneg; lia).
    pose proof (Z.div_mod (Z.pos m) (2 ^ (- e)) ltac:(lia)).
    pose proof (Z.mod_pos_bound (Z.pos m) (2 ^ (- e)) ltac:(lia)).
    simpl (2 ^ 0). nia.
Qed.

Lemma shiftl_below_one (m : positive) (e : Z) :
  Z.pos m < 2 ^ 53 ->
  e < -52 \/ (e = -52 /\ Z.pos m < 4503599627370496) ->
  Z.shiftl (Z.pos m) e = 0.
Proof.
  intros Hm He.
  assert (e < 0) as Hneg by (destruct He as [He | [He _]]; lia).
  rewrite Z.shiftl_div_pow2 by lia. apply Z.div_small. split; [lia|].
  destruct He as [He | [-> Hlt]].
  - eapply Z.lt_le_trans; [exact Hm|]. apply Z.pow_le_mono_r; lia.
  - change (2 ^ (- (-52))) with 4503599627370496. exact Hlt.
Qed.

(** Order of two positive finite floats, on their mantissas and exponents. *)
Lemma finite_ltb_positive (m1 m2 : positive) (e1 e2 : Z) :
  SFltb (S754_finite false m1 e1) (S754_finite false m2 e2) = true ->
  e1 < e2 \/ (e1 = e2 /\ Z.pos m1 < Z.pos m2).
Proof.
  unfold SFltb, SFcompare. intros H.
  destruct (e1 ?= e2) eqn:Hc; [| |discriminate H].
  - right. split; [apply Z.compare_eq_iff; exact Hc|].
    destruct (Pos.compare_cont Eq m1 m2) eqn:C; try discriminate H.
    apply Pos2Z.pos_lt_pos. apply Pos.compare_lt_iff. exact C.
  - left. apply Z.compare_lt_iff. exact Hc.
Qed.

(** [int] of a float strictly between 0 and 1 is 0, and such a float is
    not equal to 0. *)
Lemma py_int_below_one (x : float) :
  (0 <? x)%float = true -> (x <? 1)%float = true ->
  (x =? 0)%float = false /\ py_int (Float x) = Ok 0.
Proof.
  intros H0 H1. rewrite float_ltb_zero in H0. rewrite float_eqb_zero.
  rewrite FloatAxioms.ltb_spec in H1.
  change (Prim2SF 1) with (S754_finite false 4503599627370496 (-52)) in H1.
  unfold py_int. destruct (Prim2SF x) as [s|s| |s m e] eqn:E; try discriminate.
  - destruct s; discriminate.
  - destruct s; [discriminate|]. split; [reflexivity|].
    destruct (valid_finite _ _ _ _ E) as (Hd & _ & _).
    pose proof (digits2_pos_bound m) as Hm.
    assert (Z.pos m < 2 ^ 53) as Hm53.
    { eapply Z.lt_le_trans; [exact Hm|]. apply Z.pow_le_mono_r; [reflexivity | exact Hd]. }
    unfold cond_Zopp. f_equal.
    apply shiftl_below_one; [exact Hm53|]. apply finite_ltb_positive. exact H1.
Qed.

(** ** The loan extractor *)

(** [text] holds the label [kw], in any case *)
Definition contains_label (ieq : Z -> Z -> bool) (kw text : pystr) : Prop :=
  exists pre lab post, text = pre ++ lab ++ post /\ same_label ieq kw lab.

Lemma matches_contains_label ieq kw text :
  matches ieq kw text -> contains_label ieq kw text.
Proof.
  intros (i & g & _ & Hm).
  destruct (keyword_regex_shape _ _ _ _ Hm) as (lab & sep1 & col & sep2 & rest & Hs & Hlab & _).
  exists (take i text), lab, (sep1 ++ col ++ sep2 ++ g ++ rest). split; [|exact Hlab].
  rewrite <- Hs. symmetry. apply take_drop.
Qed.

Section LoanExtractor.
Variable ieq : Z -> Z -> bool.
Variable clean_text : pystr -> pystr.
Variable parse_number : pystr -> float.

Lemma find_number_without_label self keywords :
  Forall (fun k => ~ contains_label ieq k (text_content self)) keywords ->
  _find_number_after_keyword ieq clean_text parse_number self keywords = 0%float.
Proof.
  intros H. apply find_number_no_match.
  eapply Forall_impl; [exact H|]. intros k Hk Hm. apply Hk, matches_contains_label, Hm.
Qed.

(** C2. When the loan-amount lookup is exactly 0 and the total need is above
    0, the loan amount of the record is the total need minus the equity and
    the equity ratio is equity / total need * 100; the ratio is 0 when the
    total need is not above 0.  With a total need of 1000000000, an equity
    of 200000000 and no loan amount found, the loan amount is 800000000 and
    the ratio 20.0.  The extractor fails to return a record only when [int]
    of the loan term raises. *)
Theorem loan_amount_derived_when_not_found (self : DocxParser) :
  (_find_number_after_keyword ieq clean_text parse_number self loan_amount_keywords =? 0)%float
  = true ->
  match extract_loan_info ieq clean_text parse_number self with
  | Ok d =>
      ((0 <? _find_number_after_keyword ieq clean_text parse_number self total_need_keywords)%float
       = true ->
       d !! "loan_amount"
       = Some (VNum (Float
           (_find_number_after_keyword ieq clean_text parse_number self total_need_keywords
            - _find_number_after_keyword ieq clean_text parse_number self equity_keywords)%float))
       /\ d !! "equity_ratio"
          = Some (VNum (Float
              (_find_number_after_keyword ieq clean_text parse_number self equity_keywords
               / _find_number_after_keyword ieq clean_text parse_number self total_need_keywords
               * 100)%float)))
      /\ ((0 <? _find_number_after_keyword ieq clean_text parse_number self total_need_keywords)%float
          = false ->
          d !! "equity_ratio" = Some (VNum (Int 0)))
      /\ (_find_number_after_keyword ieq clean_text parse_number self total_need_keywords
          = 1000000000%float ->
          _find_number_after_keyword ieq clean_text parse_number self equity_keywords
          = 200000000%float ->
          d !! "loan_amount" = Some (VNum (Float 800000000))
          /\ d !! "equity_ratio" = Some (VNum (Float 20)))
  | Raise e =>
      py_int (Float (_find_number_after_keyword ieq clean_text parse_number self loan_term_keywords))
      = Raise e
  end.
Proof.
  intros Hzero. unfold extract_loan_info. rewrite Hzero.
  generalize (_find_number_after_keyword ieq clean_text parse_number self total_need_keywords).
  generalize (_find_number_after_keyword ieq clean_text parse_number self equity_keywords).
  generalize (_find_number_after_keyword ieq clean_text parse_number self interest_rate_keywords).
  generalize (_find_number_after_keyword ieq clean_text parse_number self loan_term_keywords).
  generalize (py_or (_find_value_after_keyword ieq clean_text self purpose_keywords None)
                (u "Kinh doanh")).
  intros purpose term rate equity need.
  unfold bind.
  destruct (term =? 0)%float eqn:Ht.
  - simpl py_int. cbv iota beta.
    destruct (0 <? need)%float eqn:Hn.
    + split; [intros _; split; reflexivity|]. split; [discriminate|].
      intros -> ->. split; reflexivity.
    + split; [discriminate|]. split; [intros _; reflexivity|].
      intros -> ->. vm_compute in Hn. discriminate Hn.
  - destruct (py_int (Float term)) as [months|e] eqn:P; [|reflexivity].
    destruct (0 <? need)%float eqn:Hn.
    + split; [intros _; split; reflexivity|]. split; [discriminate|].
      intros -> ->. split; reflexivity.
    + split; [discriminate|]. split; [intros _; reflexivity|].
      intros -> ->. vm_compute in Hn. discriminate Hn.
Qed.

(** The record of the loan extractor, from the resolved lookups. *)
Lemma extract_loan_info_term (self : DocxParser) :
  let term := _find_number_after_keyword ieq clean_text parse_number self loan_term_keywords in
  match extract_loan_info ieq clean_text parse_number self with
  | Ok d =>
      exists months,
        py_int (if (term =? 0)%float then Int 120 else Float term) = Ok months
        /\ d !! "loan_term" = Some (VNum (Int months))
  | Raise e =>
      (term =? 0)%float = false /\ py_int (Float term) = Raise e
  end.
Proof.
  intros term. unfold extract_loan_info. fold term. unfold bind.
  destruct (term =? 0)%float eqn:Ht.
  - simpl py_int. cbv iota beta. exists 120. split; reflexivity.
  - destruct (py_int (Float term)) as [months|e] eqn:P.
    + exists months. split; reflexivity.
    + split; reflexivity.
Qed.

(** C3. A text with no interest-rate label and no loan-term label gives
    interest_rate = 8.5 and loan_term = 120.  More generally an interest-rate
    lookup of exactly 0 gives 8.5, a loan-term lookup of exactly 0 gives 120,
    and any other loan term is returned as an integer: the integer part of
    the lookup, towards zero. *)
Theorem loan_rate_and_term_defaults (self : DocxParser) :
  (Forall (fun k => ~ contains_label ieq k (text_content self)) interest_rate_keywords ->
   Forall (fun k => ~ contains_label ieq k (text_content self)) loan_term_keywords ->
   exists d, extract_loan_info ieq clean_text parse_number self = Ok d
     /\ d !! "interest_rate" = Some (VNum (Float 8.5))
     /\ d !! "loan_term" = Some (VNum (Int 120)))
  /\ ((_find_number_after_keyword ieq clean_text parse_number self loan_term_keywords =? 0)%float
      = true ->
      exists d, extract_loan_info ieq clean_text parse_number self = Ok d
        /\ d !! "loan_term" = Some (VNum (Int 120)))
  /\ match extract_loan_info ieq clean_text parse_number self with
     | Ok d =>
         ((_find_number_after_keyword ieq clean_text parse_number self interest_rate_keywords
           =? 0)%float = true ->
          d !! "interest_rate" = Some (VNum (Float 8.5)))
         /\ ((_find_number_after_keyword ieq clean_text parse_number self interest_rate_keywords
              =? 0)%float = false ->
             d !! "interest_rate"
             = Some (VNum (Float (_find_number_after_keyword ieq clean_text parse_number self
                                    interest_rate_keywords))))
         /\ (exists months, d !! "loan_term" = Some (VNum (Int months)))
         /\ (forall s m e,
               Prim2SF (_find_number_after_keyword ieq clean_text parse_number self
                          loan_term_keywords) = S754_finite s m e ->
               exists q, d !! "loan_term" = Some (VNum (Int (cond_Zopp s q)))
                 /\ q * 2 ^ Z.max 0 (- e) <= Z.pos m * 2 ^ Z.max 0 e
                    < (q + 1) * 2 ^ Z.max 0 (- e))
     | Raise e =>
         (_find_number_after_keyword ieq clean_text parse_number self loan_term_keywords
          =? 0)%float = false
         /\ py_int (Float (_find_number_after_keyword ieq clean_text parse_number self
                             loan_term_keywords)) = Raise e
     end.
Proof.
  pose proof (extract_loan_info_term self) as Hterm. cbv zeta in Hterm.
  assert (forall d, extract_loan_info ieq clean_text parse_number self = Ok d ->
            d !! "interest_rate"
            = Some (VNum (Float
                (if (_find_number_after_keyword ieq clean_text parse_number self
                       interest_rate_keywords =? 0)%float
                 then 8.5%float
                 else _find_number_after_keyword ieq clean_text parse_number self
                        interest_rate_keywords)))) as Hrate.
  { intros d. unfold extract_loan_info, bind.
    destruct (py_int _); [|discriminate]. intros [= <-]. reflexivity. }
  split; [|split].
  - intros Hr Ht.
    apply (find_number_without_label self) in Hr. apply (find_number_without_label self) in Ht.
    destruct (extract_loan_info ieq clean_text parse_number self) as [d|e] eqn:E.
    + exists d. split; [reflexivity|]. split.
      * rewrite (Hrate d eq_refl), Hr. reflexivity.
      * destruct Hterm as (months & Hm & Hd). rewrite Ht in Hm.
        simpl in Hm. injection Hm as <-. exact Hd.
    + destruct Hterm as [Hz _]. rewrite Ht in Hz. discriminate Hz.
  - intros Hz.
    destruct (extract_loan_info ieq clean_text parse_number self) as [d|e] eqn:E.
    + exists d. split; [reflexivity|].
      destruct Hterm as (months & Hm & Hd). rewrite Hz in Hm.
      simpl in Hm. injection Hm as <-. exact Hd.
    + destruct Hterm as [Hz' _]. rewrite Hz in Hz'. discriminate Hz'.
  - destruct (extract_loan_info ieq clean_text parse_number self) as [d|e] eqn:E;
      [|exact Hterm].
    specialize (Hrate d eq_refl). destruct Hterm as (months & Hm & Hd).
    split; [intros Hz; rewrite Hrate, Hz; reflexivity|].
    split; [intros Hz; rewrite Hrate, Hz; reflexivity|].
    split; [exists months; exact Hd|].
    intros s m e0 Hfin.
    rewrite float_eqb_zero in Hm. rewrite Hfin in Hm.
    destruct (py_int_truncates _ _ _ _ Hfin) as (q & Hq & Hb).
    exists q. split; [|exact Hb]. rewrite Hq in Hm. injection Hm as <-. exact Hd.
Qed.

(** C10. A loan-term lookup strictly between 0 and 1 is not 0, so the
    default of 120 is not taken, and its integer part is 0: the loan term of
    the record is 0. *)
Theorem loan_term_zero_for_fraction (self : DocxParser) :
  (0 <? _find_number_after_keyword ieq clean_text parse_number self loan_term_keywords)%float
  = true ->
  (_find_number_after_keyword ieq clean_text parse_number self loan_term_keywords <? 1)%float
  = true ->
  (_find_number_after_keyword ieq clean_text parse_number self loan_term_keywords =? 0)%float
  = false
  /\ exists d, extract_loan_info ieq clean_text parse_number self = Ok d
       /\ d !! "loan_term" = Some (VNum (Int 0)).
Proof.
  intros H0 H1. destruct (py_int_below_one _ H0 H1) as [Hz Hint].
  split; [exact Hz|].
  pose proof (extract_loan_info_term self) as Hterm. cbv zeta in Hterm.
  rewrite Hz in Hterm.
  destruct (extract_loan_info ieq clean_text parse_number self) as [d|e].
  - exists d. split; [reflexivity|]. destruct Hterm as (months & Hm & Hd).
    rewrite Hint in Hm. injection Hm as <-. exact Hd.
  - destruct Hterm as [_ Hr]. rewrite Hint in Hr. discriminate Hr.
Qed.
End LoanExtractor.

(** ** The records and the document *)

(** A float is finite when it is neither a NaN nor an infinity. *)
Lemma is_finite_spec (x : float) :
  is_finite x
  = match Prim2SF x with
    | S754_zero _ | S754_finite _ _ _ => true
    | _ => false
    end.
Proof.
  unfold is_finite, is_nan, is_infinity.
  rewrite !FloatAxioms.eqb_spec, abs_spec.
  change (Prim2SF infinity) with (S754_infinity false).
  destruct (Prim2SF x) as [s|s| |s m e]; try reflexivity.
  - destruct s; reflexivity.
  - unfold SFeqb, SFabs, SFcompare.
    rewrite Z.compare_refl, Pos.compare_cont_refl. destruct s; reflexivity.
Qed.

(** [d] has exactly the keys [keys], and none of its values is [None] *)
Definition populated (keys : gset string) (d : gmap string PyVal) : Prop :=
  dom d = keys /\ map_Forall (fun _ v => v <> VNone) d.

(** the value of a text field: the located value, or [default] when the
    locator found nothing or an empty value *)
Definition text_field (located : option pystr) (default : pystr) : option PyVal :=
  Some (VStr (match located with Some (c :: s) => c :: s | _ => default end)).

Ltac populated_record :=
  split; [reflexivity |
          repeat (apply map_Forall_insert_2; [discriminate|]); apply map_Forall_empty].

Section Document.
Variable ieq : Z -> Z -> bool.
Variable clean_text : pystr -> pystr.
Variable parse_number : pystr -> float.

(** The numbers of the loan record [loan], from the lookups of lines 104 to
    136: what lines 119 to 145 make of them. *)
Definition loan_numbers (self : DocxParser) (loan : gmap string PyVal) : Prop :=
  let total_need :=
    _find_number_after_keyword ieq clean_text parse_number self total_need_keywords in
  let equity := _find_number_after_keyword ieq clean_text parse_number self equity_keywords in
  let loan_amount :=
    _find_number_after_keyword ieq clean_text parse_number self loan_amount_keywords in
  let interest_rate :=
    _find_number_after_keyword ieq clean_text parse_number self interest_rate_keywords in
  let loan_term :=
    _find_number_after_keyword ieq clean_text parse_number self loan_term_keywords in
  loan !! "total_need" = Some (VNum (Float total_need))
  /\ loan !! "equity" = Some (VNum (Float equity))
  /\ ((loan_amount =? 0)%float && (0 <? total_need)%float = true ->
      loan !! "loan_amount" = Some (VNum (Float (total_need - equity))))
  /\ ((loan_amount =? 0)%float && (0 <? total_need)%float = false ->
      loan !! "loan_amount" = Some (VNum (Float loan_amount)))
  /\ ((0 <? total_need)%float = true ->
      loan !! "equity_ratio" = Some (VNum (Float (equity / total_need * 100))))
  /\ ((0 <? total_need)%float = false ->
      loan !! "equity_ratio" = Some (VNum (Int 0)))
  /\ ((interest_rate =? 0)%float = true ->
      loan !! "interest_rate" = Some (VNum (Float 8.5)))
  /\ ((interest_rate =? 0)%float = false ->
      loan !! "interest_rate" = Some (VNum (Float interest_rate)))
  /\ exists months,
       py_int (if (loan_term =? 0)%float then Int 120 else Float loan_term) = Ok months
       /\ loan !! "loan_term" = Some (VNum (Int months)).

Lemma parse_full_document_outcome (self : DocxParser) :
  match extract_loan_info ieq clean_text parse_number self with
  | Ok loan =>
      parse_full_document ieq clean_text parse_number self
      = Ok {[ "customer_info" := VDict (extract_customer_info ieq clean_text self);
              "loan_info" := VDict loan;
              "collateral_info" := VDict (extract_collateral_info ieq clean_text parse_number self);
              "financial_info" := VDict (extract_financial_info ieq clean_text parse_number self);
              "raw_text" := VStr (text_content self) ]}
  | Raise e => parse_full_document ieq clean_text parse_number self = Raise e
  end.
Proof.
  unfold parse_full_document.
  destruct (extract_loan_info ieq clean_text parse_number self); reflexivity.
Qed.

Lemma extract_loan_info_finite (self : DocxParser) :
  is_finite (_find_number_after_keyword ieq clean_text parse_number self loan_term_keywords)
  = true ->
  exists loan, extract_loan_info ieq clean_text parse_number self = Ok loan.
Proof.
  intros Hfin. rewrite is_finite_spec in Hfin.
  pose proof (extract_loan_info_term ieq clean_text parse_number self) as Hterm.
  cbv zeta in Hterm.
  destruct (extract_loan_info ieq clean_text parse_number self) as [d|e]; [eauto|].
  destruct Hterm as [_ Hr]. unfold py_int in Hr.
  destruct (Prim2SF _); discriminate.
Qed.

Lemma extract_loan_info_not_finite (self : DocxParser) :
  is_finite (_find_number_after_keyword ieq clean_text parse_number self loan_term_keywords)
  = false ->
  exists e, extract_loan_info ieq clean_text parse_number self = Raise e.
Proof.
  intros Hfin. rewrite is_finite_spec in Hfin.
  pose proof (extract_loan_info_term ieq clean_text parse_number self) as Hterm.
  cbv zeta in Hterm.
  destruct (extract_loan_info ieq clean_text parse_number self) as [d|e]; [|eauto].
  destruct Hterm as (months & Hm & _). rewrite float_eqb_zero in Hm.
  destruct (Prim2SF _) eqn:E; try discriminate Hfin;
    unfold py_int in Hm; rewrite E in Hm; discriminate Hm.
Qed.

(** C4, as the code has it.  For an empty text and no tables the document is
    returned with every customer field and the asset address empty, the
    purpose, asset type, legal documents and payment frequency at their
    fixed texts, every number at its default, and an empty raw text. *)
Theorem empty_document_defaults :
  parse_full_document ieq clean_text parse_number {| text_content := []; tables := [] |}
  = Ok {[ "customer_info" :=
            VDict {[ "name" := VStr []; "cccd" := VStr [];
                     "address" := VStr []; "phone" := VStr [] ]};
          "loan_info" :=
            VDict {[ "purpose" := VStr (u "Kinh doanh");
                     "total_need" := VNum (Float 0);
                     "equity" := VNum (Float 0);
                     "loan_amount" := VNum (Float 0);
                     "equity_ratio" := VNum (Int 0);
                     "interest_rate" := VNum (Float 8.5);
                     "loan_term" := VNum (Int 120);
                     "payment_frequency" := VStr (u "Tháng") ]};
          "collateral_info" :=
            VDict {[ "asset_type" := VStr (u "Bất động sản");
                     "market_value" := VNum (Float 0);
                     "asset_address" := VStr [];
                     "ltv" := VNum (Float 70);
                     "legal_docs" := VStr (u "Sổ đỏ/Giấy chứng nhận quyền sử dụng đất") ]};
          "financial_info" :=
            VDict {[ "monthly_income" := VNum (Float 0);
                     "monthly_expense" := VNum (Float 0);
                     "other_debt" := VNum (Float 0) ]};
          "raw_text" := VStr [] ]}.
Proof. unfold parse_full_document, extract_loan_info. reflexivity. Qed.


(** The locators return not-found and 0, never an error, when no label
    matches; the customer, collateral and financial extractors are total;
    and when the loan-term lookup is a finite number (0 when no label
    matches) the loan extractor and the whole document return normally. *)
Theorem document_returns_for_finite_loan_term (self : DocxParser) :
  is_finite (_find_number_after_keyword ieq clean_text parse_number self loan_term_keywords)
  = true ->
  (exists loan,
     extract_loan_info ieq clean_text parse_number self = Ok loan
     /\ parse_full_document ieq clean_text parse_number self
        = Ok {[ "customer_info" := VDict (extract_customer_info ieq clean_text self);
                "loan_info" := VDict loan;
                "collateral_info" :=
                  VDict (extract_collateral_info ieq clean_text parse_number self);
                "financial_info" :=
                  VDict (extract_financial_info ieq clean_text parse_number self);
                "raw_text" := VStr (text_content self) ]})
  /\ (forall keywords,
        Forall (fun k => ~ matches ieq k (text_content self)) keywords ->
        _find_value_after_keyword ieq clean_text self keywords None = None
        /\ _find_number_after_keyword ieq clean_text parse_number self keywords = 0%float).
Proof.
  intros Hfin. split.
  - destruct (extract_loan_info_finite self Hfin) as (loan & Hloan).
    exists loan. split; [exact Hloan|].
    pose proof (parse_full_document_outcome self) as Hdoc.
    rewrite Hloan in Hdoc. exact Hdoc.
  - intros keywords Hnone. split.
    + apply find_value_None. exact Hnone.
    + apply find_number_no_match. exact Hnone.
Qed.

(** When the loan-term lookup is an infinity or a NaN, the loan extractor
    and the whole document raise. *)
Lemma document_raises_for_other_loan_term (self : DocxParser) :
  is_finite (_find_number_after_keyword ieq clean_text parse_number self loan_term_keywords)
  = false ->
  exists e, extract_loan_info ieq clean_text parse_number self = Raise e
    /\ parse_full_document ieq clean_text parse_number self = Raise e.
Proof.
  intros Hfin. destruct (extract_loan_info_not_finite self Hfin) as (e & He).
  exists e. split; [exact He|].
  pose proof (parse_full_document_outcome self) as Hdoc.
  rewrite He in Hdoc. exact Hdoc.
Qed.

(** C8, as the code has it.  Every record has exactly its named fields and
    none of them is [None], and every field has the value the code gives
    it.  A text field is the located value or, when nothing or an empty
    value was located, its default: the empty string for the customer
    fields and the asset address, a fixed text for the purpose, the asset
    type and the legal documents.  The market value, the three financial
    fields, the total need and the equity are their number lookups, 0.0
    when nothing was located.  The LTV and the interest rate are their
    lookups, or 70.0 and 8.5 for a lookup equal to 0.  The loan amount is
    its lookup, or the total need minus the equity when the lookup is equal
    to 0 and the total need is above 0; the equity ratio is equity / total
    need * 100 when the total need is above 0 and the integer 0 otherwise;
    the loan term is [int] of the lookup, or of 120 for a lookup equal to 0;
    the payment frequency is a fixed text.  The document, for a finite
    loan-term lookup, has exactly the four groups and the raw text. *)
Theorem records_fully_populated (self : DocxParser) :
  (populated {[ "name"; "cccd"; "address"; "phone" ]}
     (extract_customer_info ieq clean_text self)
   /\ extract_customer_info ieq clean_text self !! "name"
      = text_field (_find_value_after_keyword ieq clean_text self customer_name_keywords None) []
   /\ extract_customer_info ieq clean_text self !! "cccd"
      = text_field (_find_value_after_keyword ieq clean_text self customer_cccd_keywords None) []
   /\ extract_customer_info ieq clean_text self !! "address"
      = text_field (_find_value_after_keyword ieq clean_text self customer_address_keywords None) []
   /\ extract_customer_info ieq clean_text self !! "phone"
      = text_field (_find_value_after_keyword ieq clean_text self customer_phone_keywords None) [])
  /\ (populated {[ "asset_type"; "market_value"; "asset_address"; "ltv"; "legal_docs" ]}
        (extract_collateral_info ieq clean_text parse_number self)
      /\ extract_collateral_info ieq clean_text parse_number self !! "asset_type"
         = text_field (_find_value_after_keyword ieq clean_text self asset_type_keywords None)
             (u "Bất động sản")
      /\ extract_collateral_info ieq clean_text parse_number self !! "asset_address"
         = text_field (_find_value_after_keyword ieq clean_text self asset_address_keywords None) []
      /\ extract_collateral_info ieq clean_text parse_number self !! "legal_docs"
         = text_field (_find_value_after_keyword ieq clean_text self legal_docs_keywords None)
             (u "Sổ đỏ/Giấy chứng nhận quyền sử dụng đất")
      /\ extract_collateral_info ieq clean_text parse_number self !! "market_value"
         = Some (VNum (Float (_find_number_after_keyword ieq clean_text parse_number self
                                market_value_keywords)))
      /\ ((_find_number_after_keyword ieq clean_text parse_number self ltv_keywords =? 0)%float
          = true ->
          extract_collateral_info ieq clean_text parse_number self !! "ltv"
          = Some (VNum (Float 70)))
      /\ ((_find_number_after_keyword ieq clean_text parse_number self ltv_keywords =? 0)%float
          = false ->
          extract_collateral_info ieq clean_text parse_number self !! "ltv"
          = Some (VNum (Float (_find_number_after_keyword ieq clean_text parse_number self
                                 ltv_keywords)))))
  /\ (populated {[ "monthly_income"; "monthly_expense"; "other_debt" ]}
        (extract_financial_info ieq clean_text parse_number self)
      /\ extract_financial_info ieq clean_text parse_number self !! "monthly_income"
         = Some (VNum (Float (_find_number_after_keyword ieq clean_text parse_number self
                                monthly_income_keywords)))
      /\ extract_financial_info ieq clean_text parse_number self !! "monthly_expense"
         = Some (VNum (Float (_find_number_after_keyword ieq clean_text parse_number self
                                monthly_expense_keywords)))
      /\ extract_financial_info ieq clean_text parse_number self !! "other_debt"
         = Some (VNum (Float (_find_number_after_keyword ieq clean_text parse_number self
                                other_debt_keywords))))
  /\ (is_finite (_find_number_after_keyword ieq clean_text parse_number self loan_term_keywords)
      = true ->
      exists loan doc,
        extract_loan_info ieq clean_text parse_number self = Ok loan
        /\ populated {[ "purpose"; "total_need"; "equity"; "loan_amount"; "equity_ratio";
                        "interest_rate"; "loan_term"; "payment_frequency" ]} loan
        /\ loan !! "purpose"
           = text_field (_find_value_after_keyword ieq clean_text self purpose_keywords None)
               (u "Kinh doanh")
        /\ loan !! "payment_frequency" = Some (VStr (u "Tháng"))
        /\ loan_numbers self loan
        /\ parse_full_document ieq clean_text parse_number self = Ok doc
        /\ populated {[ "customer_info"; "loan_info"; "collateral_info";
                        "financial_info"; "raw_text" ]} doc
        /\ doc !! "customer_info" = Some (VDict (extract_customer_info ieq clean_text self))
        /\ doc !! "loan_info" = Some (VDict loan)
        /\ doc !! "collateral_info"
           = Some (VDict (extract_collateral_info ieq clean_text parse_number self))
        /\ doc !! "financial_info"
           = Some (VDict (extract_financial_info ieq clean_text parse_number self))
        /\ doc !! "raw_text" = Some (VStr (text_content self))).
Proof.
  split; [|split; [|split]].
  - split; [populated_record|]. repeat split; reflexivity.
  - split; [populated_record|]. unfold extract_collateral_info.
    repeat split; try reflexivity; intros ->; reflexivity.
  - split; [populated_record|]. repeat split; reflexivity.
  - intros Hfin. destruct (extract_loan_info_finite self Hfin) as (loan & Hloan).
    pose proof (parse_full_document_outcome self) as Hdoc. rewrite Hloan in Hdoc.
    assert (populated {[ "purpose"; "total_need"; "equity"; "loan_amount"; "equity_ratio";
                         "interest_rate"; "loan_term"; "payment_frequency" ]} loan
            /\ loan !! "purpose"
               = text_field (_find_value_after_keyword ieq clean_text self purpose_keywords None)
                   (u "Kinh doanh")
            /\ loan !! "payment_frequency" = Some (VStr (u "Tháng"))
            /\ loan_numbers self loan) as (Hp & Hpurpose & Hfreq & Hnum).
    { revert Hloan. unfold extract_loan_info, bind.
      destruct (py_int _) as [months|e] eqn:Hint; [|discriminate]. intros [= <-].
      split; [populated_record|]. split; [reflexivity|]. split; [reflexivity|].
      unfold loan_numbers. repeat split; try reflexivity.
      - intros ->. reflexivity.
      - intros ->. reflexivity.
      - intros ->. reflexivity.
      - intros ->. reflexivity.
      - intros ->. reflexivity.
      - intros ->. reflexivity.
      - exists months. split; [exact Hint | reflexivity]. }
    exists loan. eexists.
    split; [exact Hloan|]. split; [exact Hp|]. split; [exact Hpurpose|].
    split; [exact Hfreq|]. split; [exact Hnum|]. split; [exact Hdoc|].
    split; [populated_record|]. repeat split; reflexivity.
Qed.
End Document.

(** ** Floats: the difference of a smaller and a larger positive number

    Rounding to nearest never turns a non-zero difference of two binary64
    numbers into zero, and keeps its sign. *)

Lemma shr_1_halves (mrs : shr_record) :
  0 <= shr_m mrs -> shr_m (shr_1 mrs) = shr_m mrs / 2.
Proof.
  destruct mrs as [m r s]. simpl. intros Hm.
  destruct m as [|p|p].
  - reflexivity.
  - rewrite <- Z.div2_div. destruct p; reflexivity.
  - exfalso. apply Hm. reflexivity.
Qed.

Lemma iter_shr_1_divides (n : positive) : forall mrs,
  0 <= shr_m mrs -> shr_m (SpecFloat.iter_pos shr_1 n mrs) = shr_m mrs / 2 ^ Z.pos n.
Proof.
  induction n as [n IH|n IH|]; intros mrs Hm; simpl SpecFloat.iter_pos.
  - assert (0 < 2 ^ Z.pos n) as Hp by (apply Z.pow_pos_nonneg; lia).
    assert (0 <= shr_m (shr_1 mrs)) as H1.
    { rewrite shr_1_halves by exact Hm. apply Z.div_pos; lia. }
    assert (0 <= shr_m (SpecFloat.iter_pos shr_1 n (shr_1 mrs))) as H2.
    { rewrite IH by exact H1. apply Z.div_pos; lia. }
    rewrite IH by exact H2. rewrite IH by exact H1. rewrite shr_1_halves by exact Hm.
    rewrite !Z.div_div by lia. f_equal.
    rewrite (Pos2Z.inj_xI n), Z.pow_add_r, Z.pow_twice_r by lia. simpl (2 ^ 1). lia.
  - assert (0 < 2 ^ Z.pos n) as Hp by (apply Z.pow_pos_nonneg; lia).
    assert (0 <= shr_m (SpecFloat.iter_pos shr_1 n mrs)) as H2.
    { rewrite IH by exact Hm. apply Z.div_pos; lia. }
    rewrite IH by exact H2. rewrite IH by exact Hm.
    rewrite !Z.div_div by lia. f_equal.
    rewrite (Pos2Z.inj_xO n), Z.pow_twice_r. reflexivity.
  - rewrite shr_1_halves by exact Hm. reflexivity.
Qed.

Lemma shr_record_of_loc_m (m : Z) (l : location) : shr_m (shr_record_of_loc m l) = m.
Proof. destruct l as [|[]]; reflexivity. Qed.

Lemma shift_within_digits (dg e : Z) (k : positive) :
  -1074 <= e -> Z.max (dg + e - 53) (-1074) - e = Z.pos k ->
  0 <= Z.pos k <= dg - 1.
Proof. lia. Qed.

(** Shifting a positive mantissa to its canonical exponent leaves it
    positive, when the exponent is not below the least one. *)
Lemma shr_fexp_positive (p : positive) (e : Z) (l : location) :
  -1074 <= e ->
  0 < shr_m (fst (shr_fexp prec emax (Z.pos p) e l))
  /\ -1074 <= snd (shr_fexp prec emax (Z.pos p) e l).
Proof.
  intros He. unfold shr_fexp, shr, fexp, SpecFloat.emin, prec, emax. simpl Zdigits2.
  change (3 - 1024 - 53) with (-1074).
  destruct (Z.max (Z.pos (digits2_pos p) + e - 53) (-1074) - e) as [|k|k] eqn:Hn; simpl fst; simpl snd.
  - rewrite shr_record_of_loc_m. split; [reflexivity | exact He].
  - destruct (shift_within_digits _ _ _ He Hn) as [_ Hk].
    rewrite iter_shr_1_divides by (rewrite shr_record_of_loc_m; discriminate).
    rewrite shr_record_of_loc_m. split.
    + apply Z.div_str_pos. split; [apply Z.pow_pos_nonneg; lia|].
      eapply Z.le_trans; [|apply digits2_pos_low].
      apply Z.pow_le_mono_r; [reflexivity | exact Hk].
    + lia.
  - rewrite shr_record_of_loc_m. split; [reflexivity | exact He].
Qed.

Lemma round_nearest_even_ge (m : Z) (l : location) : m <= round_nearest_even m l.
Proof.
  destruct l as [|[]]; simpl; try lia. destruct (Z.even m); lia.
Qed.

Lemma binary_round_aux_keeps_sign (sx : bool) (p : positive) (e : Z) (l : location) :
  -1074 <= e ->
  (exists m e', binary_round_aux prec emax sx (Z.pos p) e l = S754_finite sx m e')
  \/ binary_round_aux prec emax sx (Z.pos p) e l = S754_infinity sx.
Proof.
  intros He. unfold binary_round_aux.
  destruct (shr_fexp_positive p e l He) as [H1 H1e].
  destruct (shr_fexp prec emax (Z.pos p) e l) as [mrs' e'] eqn:E1. simpl in H1, H1e.
  pose proof (round_nearest_even_ge (shr_m mrs') (loc_of_shr_record mrs')) as Hr.
  destruct (round_nearest_even (shr_m mrs') (loc_of_shr_record mrs')) as [|p2|p2];
    [lia| |lia].
  destruct (shr_fexp_positive p2 e' loc_Exact H1e) as [H2 _].
  destruct (shr_fexp prec emax (Z.pos p2) e' loc_Exact) as [mrs'' e''] eqn:E2. simpl in H2.
  destruct (shr_m mrs'') as [|m|m]; [lia| |lia].
  destruct (e'' <=? emax - prec); [left; eauto | right; reflexivity].
Qed.

Lemma binary_round_keeps_sign (sx : bool) (p : positive) (e : Z) :
  -1074 <= e ->
  (exists m e', binary_round prec emax sx p e = S754_finite sx m e')
  \/ binary_round prec emax sx p e = S754_infinity sx.
Proof.
  intros He. unfold binary_round.
  destruct (shl_align p e (fexp prec emax (Z.pos (digits2_pos p) + e))) as [mz ez] eqn:E.
  apply binary_round_aux_keeps_sign.
  unfold shl_align, fexp, SpecFloat.emin, prec, emax in E.
  destruct (Z.max (Z.pos (digits2_pos p) + e - 53) (3 - 1024 - 53) - e);
    injection E as _ <-; lia.
Qed.

Lemma iter_xO_shift (m d : positive) : Z.pos (Pos.iter xO m d) = Z.pos m * 2 ^ Z.pos d.
Proof.
  induction d as [|d IH] using Pos.peano_ind.
  - simpl. lia.
  - rewrite Pos.iter_succ, (Pos2Z.inj_xO (Pos.iter xO m d)), IH.
    rewrite Pos2Z.inj_succ, Z.pow_succ_r by lia. lia.
Qed.

(** The mantissas of [x < y], brought to the exponent of [x], differ by a
    negative integer. *)
Lemma aligned_difference_negative (mx my : positive) (ex ey : Z) :
  Z.pos mx < 2 ^ 53 -> (ex < ey -> 2 ^ 52 <= Z.pos my) ->
  ex < ey \/ (ex = ey /\ Z.pos mx < Z.pos my) ->
  Z.min ex ey = ex
  /\ exists p, Z.pos (fst (shl_align mx ex ex)) - Z.pos (fst (shl_align my ey ex)) = Z.neg p.
Proof.
  intros Hmx Hmy Hlt. split; [lia|].
  assert (Z.pos mx < Z.pos (fst (shl_align my ey ex))) as Hless.
  { unfold shl_align. destruct (ex - ey) as [|d|d] eqn:D; simpl fst.
    - lia.
    - lia.
    - rewrite iter_xO_shift.
      assert (2 ^ 1 <= 2 ^ Z.pos d) by (apply Z.pow_le_mono_r; lia).
      assert (2 ^ 52 <= Z.pos my) by (apply Hmy; lia).
      change (2 ^ 1) with 2 in *. change (2 ^ 52) with 4503599627370496 in *.
      change (2 ^ 53) with 9007199254740992 in *. nia. }
  unfold shl_align at 1. rewrite Z.sub_diag. simpl fst.
  destruct (Z.pos mx - Z.pos (fst (shl_align my ey ex))) as [|p|p] eqn:D; [lia|lia|].
  exists p. reflexivity.
Qed.

(** For binary64 numbers [0 < x < y], the difference [x - y] is below 0. *)
Lemma float_sub_negative (x y : float) :
  (0 <? x)%float = true -> (x <? y)%float = true -> (x - y <? 0)%float = true.
Proof.
  intros H0 H1. rewrite float_ltb_zero in H0. rewrite FloatAxioms.ltb_spec in H1.
  rewrite float_ltb_neg, sub_spec.
  destruct (Prim2SF x) as [sx|sx| |sx mx ex] eqn:Ex; try discriminate H0.
  - destruct sx; [discriminate H0|].
    destruct (Prim2SF y) as [sy|sy| |sy my ey]; try destruct sy; discriminate H1.
  - destruct sx; [discriminate H0|].
    destruct (Prim2SF y) as [sy|sy| |sy my ey] eqn:Ey; try discriminate H1.
    + destruct sy; [discriminate H1 | reflexivity].
    + destruct sy; [discriminate H1|].
      apply finite_ltb_positive in H1.
      destruct (valid_finite _ _ _ _ Ex) as (Hdx & [Hex _] & _).
      destruct (valid_finite _ _ _ _ Ey) as (_ & _ & Hdy).
      assert (Z.pos mx < 2 ^ 53) as Hmx.
      { eapply Z.lt_le_trans; [apply digits2_pos_bound|].
        apply Z.pow_le_mono_r; [reflexivity | exact Hdx]. }
      assert (ex < ey -> 2 ^ 52 <= Z.pos my) as Hmy.
      { intros Hlt. pose proof (digits2_pos_low my) as Hlow.
        rewrite Hdy in Hlow by lia. exact Hlow. }
      destruct (aligned_difference_negative mx my ex ey Hmx Hmy H1) as [Hmin (p & Hp)].
      unfold SF64sub, SFsub, cond_Zopp. rewrite Hmin, Hp. unfold binary_normalize.
      destruct (binary_round_keeps_sign true p ex Hex) as [(m & e' & ->) | ->]; reflexivity.
Qed.

Section NegativeLoanAmount.
Variable ieq : Z -> Z -> bool.
Variable clean_text : pystr -> pystr.
Variable parse_number : pystr -> float.

(** C9. When the loan-amount lookup is exactly 0, the total need is above 0
    and the equity lookup exceeds the total need, the loan amount of the
    record is total need minus equity, as it is, and it is below 0. *)
Theorem loan_amount_negative_when_equity_exceeds_need (self : DocxParser) :
  (_find_number_after_keyword ieq clean_text parse_number self loan_amount_keywords =? 0)%float
  = true ->
  (0 <? _find_number_after_keyword ieq clean_text parse_number self total_need_keywords)%float
  = true ->
  (_find_number_after_keyword ieq clean_text parse_number self total_need_keywords
   <? _find_number_after_keyword ieq clean_text parse_number self equity_keywords)%float
  = true ->
  match extract_loan_info ieq clean_text parse_number self with
  | Ok d =>
      d !! "loan_amount"
      = Some (VNum (Float
          (_find_number_after_keyword ieq clean_text parse_number self total_need_keywords
           - _find_number_after_keyword ieq clean_text parse_number self equity_keywords)%float))
      /\ (_find_number_after_keyword ieq clean_text parse_number self total_need_keywords
          - _find_number_after_keyword ieq clean_text parse_number self equity_keywords
          <? 0)%float = true
  | Raise e =>
      py_int (Float (_find_number_after_keyword ieq clean_text parse_number self loan_term_keywords))
      = Raise e
  end.
Proof.
  intros Hzero Hneed Hless.
  pose proof (float_sub_negative _ _ Hneed Hless) as Hneg.
  pose proof (extract_loan_info_term ieq clean_text parse_number self) as Hterm.
  cbv zeta in Hterm. revert Hterm.
  unfold extract_loan_info, bind. rewrite Hzero, Hneed.
  destruct (py_int _) as [months|e].
  - intros _. split; [reflexivity | exact Hneg].
  - intros [_ Hr]. exact Hr.
Qed.
End NegativeLoanAmount.

(** * Examples *)

(** The documents of the examples.  The helpers are [latin_ieq],
    [clean_text_spec] and [parse_number_spec]. *)

Definition doc_empty : DocxParser := {| text_content := []; tables := [] |}.

Definition doc_purpose : DocxParser :=
  parser_of [u "Mục đích: Mua nhà"; u "Vay để kinh doanh"].


(** the value starts with U+0663, ARABIC-INDIC DIGIT THREE *)
Definition doc_other_digits : DocxParser :=
  parser_of [u "LTV: " ++ [1635] ++ u " 50"].

Definition doc_need_and_equity : DocxParser :=
  parser_of [u "Tổng nhu cầu vốn: 1.000.000.000 đồng"; u "Vốn đối ứng: 200.000.000 đồng"].

Definition doc_equity_above_need : DocxParser :=
  parser_of [u "Tổng nhu cầu vốn: 100.000.000 đồng"; u "Vốn đối ứng: 150.000.000 đồng"].

Definition doc_half_month : DocxParser :=
  parser_of [u "Thời hạn vay: 0,5 tháng"].

(** a loan term of 1 followed by 309 zeros *)
Definition doc_huge_term : DocxParser :=
  parser_of [u "Thời hạn: 1" ++ repeat 48 309].


(** Every label of the file is free of pattern syntax. *)
Lemma vocabulary_is_plain :
  forallb plain_label
    (customer_name_keywords ++ customer_cccd_keywords ++ customer_address_keywords
     ++ customer_phone_keywords ++ purpose_keywords ++ total_need_keywords
     ++ equity_keywords ++ loan_amount_keywords ++ interest_rate_keywords
     ++ loan_term_keywords ++ asset_type_keywords ++ market_value_keywords
     ++ asset_address_keywords ++ ltv_keywords ++ legal_docs_keywords
     ++ monthly_income_keywords ++ monthly_expense_keywords ++ other_debt_keywords)
  = true.
Proof. vm_compute. reflexivity. Qed.

(** C1 on the example of the specification: "Vay để" comes first in the
    list and matches on the second line, so its value is returned although
    "Mục đích" matches on the first line. *)
Lemma locate_first_label_witness :
  Forall (fun kw => plain_label kw = true) [u "Vay để"; u "Mục đích"]
  /\ _find_value_after_keyword latin_ieq clean_text_spec doc_purpose
       [u "Vay để"; u "Mục đích"] None = Some (u "kinh doanh")
  /\ exists before kw after i g,
       [u "Vay để"; u "Mục đích"] = before ++ kw :: after
       /\ Forall (fun k => ~ matches latin_ieq k (text_content doc_purpose)) before
       /\ first_match latin_ieq kw (text_content doc_purpose) i g
       /\ u "kinh doanh" = clean_text_spec g.
Proof.
  assert (Forall (fun kw => plain_label kw = true) [u "Vay để"; u "Mục đích"]) as Hplain
    by (repeat constructor).
  split; [exact Hplain|]. split; [reflexivity|].
  apply (proj1 (locate_first_label_first_occurrence latin_ieq clean_text_spec doc_purpose
                  [u "Vay để"; u "Mục đích"] Hplain) (u "kinh doanh")).
  reflexivity.
Defined.



(** C6 refuted: the located value is "٣ 50"; its first run of [[\d.,]] is
    the Arabic-Indic digit, its first run of [[0-9.,]] is "50".  The code
    parses the former. *)
Lemma number_run_with_other_digits :
  _find_value_after_keyword latin_ieq clean_text_spec doc_other_digits ltv_keywords None
  = Some ([1635] ++ u " 50")
  /\ findall_runs is_number_char [] ([1635] ++ u " 50") = [[1635]; u "50"]
  /\ findall_runs is_ascii_number_char [] ([1635] ++ u " 50") = [u "50"]
  /\ _find_number_after_keyword latin_ieq clean_text_spec parse_number_spec
       doc_other_digits ltv_keywords = parse_number_spec [1635]
  /\ parse_number_spec [1635] = 0%float
  /\ parse_number_spec (u "50") = 50%float.
Proof. repeat split; vm_compute; reflexivity. Qed.

(** C2 on a document with a total need of 1000000000, an equity of
    200000000 and no loan amount. *)
Lemma loan_amount_derived_witness :
  (_find_number_after_keyword latin_ieq clean_text_spec parse_number_spec
     doc_need_and_equity loan_amount_keywords =? 0)%float = true
  /\ _find_number_after_keyword latin_ieq clean_text_spec parse_number_spec
       doc_need_and_equity total_need_keywords = 1000000000%float
  /\ _find_number_after_keyword latin_ieq clean_text_spec parse_number_spec
       doc_need_and_equity equity_keywords = 200000000%float
  /\ exists d,
       extract_loan_info latin_ieq clean_text_spec parse_number_spec doc_need_and_equity = Ok d
       /\ d !! "loan_amount" = Some (VNum (Float 800000000))
       /\ d !! "equity_ratio" = Some (VNum (Float 20)).
Proof.
  assert ((_find_number_after_keyword latin_ieq clean_text_spec parse_number_spec
             doc_need_and_equity loan_amount_keywords =? 0)%float = true) as Hzero
    by (vm_compute; reflexivity).
  assert (_find_number_after_keyword latin_ieq clean_text_spec parse_number_spec
            doc_need_and_equity total_need_keywords = 1000000000%float) as Hneed
    by (vm_compute; reflexivity).
  assert (_find_number_after_keyword latin_ieq clean_text_spec parse_number_spec
            doc_need_and_equity equity_keywords = 200000000%float) as Hequity
    by (vm_compute; reflexivity).
  split; [exact Hzero|]. split; [exact Hneed|]. split; [exact Hequity|].
  pose proof (loan_amount_derived_when_not_found latin_ieq clean_text_spec parse_number_spec
                doc_need_and_equity Hzero) as H.
  destruct (extract_loan_info latin_ieq clean_text_spec parse_number_spec doc_need_and_equity)
    as [d|e] eqn:E.
  - exists d. split; [reflexivity|]. exact (proj2 (proj2 H) Hneed Hequity).
  - exfalso. vm_compute in H. discriminate H.
Defined.

(** C4 refuted: on the empty document the purpose of the loan is
    "Kinh doanh", not the empty string. *)
Lemma empty_document_purpose_not_empty :
  exists doc loan,
    parse_full_document latin_ieq clean_text_spec parse_number_spec doc_empty = Ok doc
    /\ doc !! "loan_info" = Some (VDict loan)
    /\ loan !! "purpose" = Some (VStr (u "Kinh doanh"))
    /\ loan !! "purpose" <> Some (VStr []).
Proof.
  eexists. eexists.
  split; [reflexivity|].
  split; [reflexivity|]. split; [reflexivity|]. discriminate.
Qed.

(** C8 refuted: on the empty document no label of the legal documents is
    located, and the field is a fixed text, not the empty string. *)
Lemma unresolved_legal_docs_not_empty :
  _find_value_after_keyword latin_ieq clean_text_spec doc_empty legal_docs_keywords None = None
  /\ extract_collateral_info latin_ieq clean_text_spec parse_number_spec doc_empty !! "legal_docs"
     = Some (VStr (u "Sổ đỏ/Giấy chứng nhận quyền sử dụng đất"))
  /\ extract_collateral_info latin_ieq clean_text_spec parse_number_spec doc_empty !! "legal_docs"
     <> Some (VStr []).
Proof. split; [reflexivity|]. split; [reflexivity|]. discriminate. Qed.

(** C7 fails on the code: a loan term of 1 followed by 309 zeros parses to
    an infinity, on which [int] raises OverflowError; neither the loan
    extractor nor the document returns. *)
Lemma document_raises_on_huge_loan_term :
  _find_number_after_keyword latin_ieq clean_text_spec parse_number_spec
    doc_huge_term loan_term_keywords = infinity
  /\ extract_loan_info latin_ieq clean_text_spec parse_number_spec doc_huge_term
     = Raise OverflowError
  /\ parse_full_document latin_ieq clean_text_spec parse_number_spec doc_huge_term
     = Raise OverflowError.
Proof. repeat split; vm_compute; reflexivity. Qed.

(** A document that does not state a loan term is returned. *)
Lemma document_returns_witness :
  is_finite (_find_number_after_keyword latin_ieq clean_text_spec parse_number_spec
               doc_need_and_equity loan_term_keywords) = true
  /\ exists loan,
       extract_loan_info latin_ieq clean_text_spec parse_number_spec doc_need_and_equity
       = Ok loan
       /\ parse_full_document latin_ieq clean_text_spec parse_number_spec doc_need_and_equity
          = Ok {[ "customer_info" :=
                    VDict (extract_customer_info latin_ieq clean_text_spec doc_need_and_equity);
                  "loan_info" := VDict loan;
                  "collateral_info" :=
                    VDict (extract_collateral_info latin_ieq clean_text_spec parse_number_spec
                             doc_need_and_equity);
                  "financial_info" :=
                    VDict (extract_financial_info latin_ieq clean_text_spec parse_number_spec
                             doc_need_and_equity);
                  "raw_text" := VStr (text_content doc_need_and_equity) ]}.
Proof.
  assert (is_finite (_find_number_after_keyword latin_ieq clean_text_spec parse_number_spec
                       doc_need_and_equity loan_term_keywords) = true) as Hfin
    by (vm_compute; reflexivity).
  split; [exact Hfin|].
  exact (proj1 (document_returns_for_finite_loan_term latin_ieq clean_text_spec
                  parse_number_spec doc_need_and_equity Hfin)).
Defined.

(** C9 on a document whose equity, 150000000, exceeds its total need,
    100000000: the loan amount is -50000000. *)
Lemma loan_amount_negative_witness :
  (_find_number_after_keyword latin_ieq clean_text_spec parse_number_spec
     doc_equity_above_need loan_amount_keywords =? 0)%float = true
  /\ (0 <? _find_number_after_keyword latin_ieq clean_text_spec parse_number_spec
            doc_equity_above_need total_need_keywords)%float = true
  /\ (_find_number_after_keyword latin_ieq clean_text_spec parse_number_spec
        doc_equity_above_need total_need_keywords
      <? _find_number_after_keyword latin_ieq clean_text_spec parse_number_spec
           doc_equity_above_need equity_keywords)%float = true
  /\ exists d,
       extract_loan_info latin_ieq clean_text_spec parse_number_spec doc_equity_above_need = Ok d
       /\ d !! "loan_amount" = Some (VNum (Float (-50000000)))
       /\ (-50000000 <? 0)%float = true.
Proof.
  assert ((_find_number_after_keyword latin_ieq clean_text_spec parse_number_spec
             doc_equity_above_need loan_amount_keywords =? 0)%float = true) as Hzero
    by (vm_compute; reflexivity).
  assert ((0 <? _find_number_after_keyword latin_ieq clean_text_spec parse_number_spec
                  doc_equity_above_need total_need_keywords)%float = true) as Hneed
    by (vm_compute; reflexivity).
  assert ((_find_number_after_keyword latin_ieq clean_text_spec parse_number_spec
             doc_equity_above_need total_need_keywords
           <? _find_number_after_keyword latin_ieq clean_text_spec parse_number_spec
                doc_equity_above_need equity_keywords)%float = true) as Hless
    by (vm_compute; reflexivity).
  split; [exact Hzero|]. split; [exact Hneed|]. split; [exact Hless|].
  pose proof (loan_amount_negative_when_equity_exceeds_need latin_ieq clean_text_spec
                parse_number_spec doc_equity_above_need Hzero Hneed Hless) as H.
  destruct (extract_loan_info latin_ieq clean_text_spec parse_number_spec doc_equity_above_need)
    as [d|e] eqn:E.
  - exists d. split; [reflexivity|]. destruct H as [Hd Hneg].
    split; [rewrite Hd; vm_compute; reflexivity | vm_compute; reflexivity].
  - exfalso. vm_compute in H. discriminate H.
Defined.

(** C10 on a document whose loan term reads "0,5": the lookup is 0.5 and
    the loan term of the record is 0. *)
Lemma loan_term_zero_witness :
  (0 <? _find_number_after_keyword latin_ieq clean_text_spec parse_number_spec
          doc_half_month loan_term_keywords)%float = true
  /\ (_find_number_after_keyword latin_ieq clean_text_spec parse_number_spec
        doc_half_month loan_term_keywords <? 1)%float = true
  /\ (_find_number_after_keyword latin_ieq clean_text_spec parse_number_spec
        doc_half_month loan_term_keywords =? 0)%float = false
  /\ exists d,
       extract_loan_info latin_ieq clean_text_spec parse_number_spec doc_half_month = Ok d
       /\ d !! "loan_term" = Some (VNum (Int 0)).
Proof.
  assert ((0 <? _find_number_after_keyword latin_ieq clean_text_spec parse_number_spec
                  doc_half_month loan_term_keywords)%float = true) as H0
    by (vm_compute; reflexivity).
  assert ((_find_number_after_keyword latin_ieq clean_text_spec parse_number_spec
             doc_half_month loan_term_keywords <? 1)%float = true) as H1
    by (vm_compute; reflexivity).
  split; [exact H0|]. split; [exact H1|].
  exact (loan_term_zero_for_fraction latin_ieq clean_text_spec parse_number_spec
           doc_half_month H0 H1).
Defined.

(** * Further properties of the code *)

(** ** The text and the tables of the opened document *)

(** [s] neither starts nor ends with whitespace *)
Definition trimmed (s : pystr) : Prop :=
  match s with
  | [] => True
  | c :: t => uni_isspace c = false /\ uni_isspace (List.last (c :: t) 0) = false
  end.

(** the lines of a text: [str.split] on the line feed *)
Definition lines_of (text : pystr) : list pystr := split_on nl [] text.

Lemma lstrip_spec (s : pystr) :
  exists p, s = p ++ lstrip s /\ forallb uni_isspace p = true
            /\ match lstrip s with [] => True | c :: _ => uni_isspace c = false end.
Proof.
  induction s as [|c s IH]; simpl.
  - exists []. auto.
  - destruct (uni_isspace c) eqn:E.
    + destruct IH as (p & Hs & Hp & Hh). exists (c :: p). simpl. rewrite E, Hp.
      split; [f_equal; exact Hs | auto].
    + exists []. auto.
Qed.

Lemma lstrip_blank (s : pystr) : forallb uni_isspace s = true -> lstrip s = [].
Proof.
  induction s as [|c s IH]; simpl; intros H; [reflexivity|].
  apply andb_true_iff in H as [Hc Hs]. rewrite Hc. auto.
Qed.

Lemma lstrip_nil_blank (s : pystr) : lstrip s = [] -> forallb uni_isspace s = true.
Proof.
  intros H. destruct (lstrip_spec s) as (p & Hs & Hp & _).
  rewrite H, app_nil_r in Hs. subst p. exact Hp.
Qed.

Lemma lstrip_kept (c : Z) (s : pystr) : uni_isspace c = false -> lstrip (c :: s) = c :: s.
Proof. intros H. simpl. rewrite H. reflexivity. Qed.

Lemma forallb_rev (f : Z -> bool) (s : pystr) : forallb f (rev s) = forallb f s.
Proof.
  induction s as [|c s IH]; simpl; [reflexivity|].
  rewrite forallb_app, IH. simpl. rewrite andb_true_r. apply andb_comm.
Qed.

Lemma strip_blank (s : pystr) : forallb uni_isspace s = true <-> strip s = [].
Proof.
  unfold strip, rstrip. split.
  - intros H. rewrite (lstrip_blank s H). reflexivity.
  - intros H. apply (f_equal (@rev Z)) in H. rewrite rev_involutive in H. simpl in H.
    apply lstrip_nil_blank in H. rewrite forallb_rev in H.
    destruct (lstrip_spec s) as (p & Hs & Hp & _).
    rewrite Hs, forallb_app, Hp, H. reflexivity.
Qed.

Lemma strip_trimmed (s : pystr) : trimmed (strip s).
Proof.
  unfold strip, rstrip.
  destruct (lstrip_spec s) as (_ & _ & _ & Hhead).
  destruct (lstrip_spec (rev (lstrip s))) as (p & Hs & Hp & Hh).
  destruct (lstrip (rev (lstrip s))) as [|b bs] eqn:E; [exact I|].
  (* the result is rev (b :: bs): its last is b, its head is the head of lstrip s *)
  assert (lstrip s = rev (b :: bs) ++ rev p) as Hl.
  { rewrite <- (rev_involutive (lstrip s)), Hs, rev_app_distr. reflexivity. }
  unfold trimmed. destruct (rev (b :: bs)) as [|c t] eqn:R.
  - exact I.
  - split.
    + rewrite Hl in Hhead. exact Hhead.
    + rewrite <- R. simpl. rewrite last_last. exact Hh.
Qed.

Lemma strip_of_trimmed (s : pystr) : trimmed s -> strip s = s.
Proof.
  unfold strip, rstrip. destruct s as [|c t]; [reflexivity|]. intros [Hc Hl].
  rewrite (lstrip_kept c t Hc).
  destruct (@exists_last Z (c :: t) ltac:(discriminate)) as (q & z & Hq).
  rewrite Hq in Hl |- *. rewrite last_last in Hl.
  rewrite rev_app_distr. simpl. rewrite Hl. simpl.
  rewrite rev_involutive. reflexivity.
Qed.

Lemma full_text_app (a b : list pystr) : full_text (a ++ b) = full_text a ++ full_text b.
Proof.
  induction a as [|t a IH]; simpl; [reflexivity|].
  destruct (strip t); rewrite IH; reflexivity.
Qed.

Lemma full_text_pieces (l : list pystr) :
  Forall (fun w => w <> [] /\ trimmed w /\ exists t, In t l /\ w = strip t) (full_text l).
Proof.
  induction l as [|t l IH]; simpl; [constructor|].
  assert (Forall (fun w => w <> [] /\ trimmed w /\ exists t0, (t = t0 \/ In t0 l) /\ w = strip t0)
            (full_text l)) as IH'.
  { eapply Forall_impl; [exact IH|]. intros w (Hne & Ht & t0 & Hin & Hw). eauto 8. }
  destruct (strip t) as [|c s] eqn:E; [exact IH'|].
  constructor; [|exact IH'].
  split; [discriminate|]. split.
  - rewrite <- E. apply strip_trimmed.
  - exists t. split; [left; reflexivity | symmetry; exact E].
Qed.

Lemma last_cons_nonempty (x : Z) (s : pystr) (d : Z) :
  s <> [] -> List.last (x :: s) d = List.last s d.
Proof. destruct s; [contradiction | reflexivity]. Qed.

Lemma last_app_nonempty (a b : pystr) (d : Z) :
  b <> [] -> List.last (a ++ b) d = List.last b d.
Proof.
  intros Hb. induction a as [|x a IH]; [reflexivity|].
  simpl app. rewrite last_cons_nonempty; [exact IH|].
  destruct a; simpl; [exact Hb | discriminate].
Qed.

Lemma trimmed_last (w : pystr) :
  w <> [] -> trimmed w -> uni_isspace (List.last w 0) = false.
Proof. destruct w as [|c t]; [contradiction|]. intros _ [_ H]. exact H. Qed.

Lemma join_tail_last (ws : list pystr) :
  ws <> [] -> Forall (fun w => w <> [] /\ trimmed w) ws ->
  uni_isspace (List.last (List.concat (List.map (fun x => nl :: x) ws)) 0) = false.
Proof.
  induction ws as [|w ws IH]; intros Hne H; [contradiction|].
  inversion H as [|? ? [Hw Ht] Hws]; subst.
  change (List.concat (List.map (fun x => nl :: x) (w :: ws)))
    with ((nl :: w) ++ List.concat (List.map (fun x => nl :: x) ws)).
  destruct ws as [|w' ws].
  - change (List.concat (List.map (fun x => nl :: x) [])) with (@nil Z).
    rewrite app_nil_r. rewrite last_cons_nonempty by exact Hw.
    apply trimmed_last; assumption.
  - rewrite last_app_nonempty by (simpl; discriminate).
    apply IH; [discriminate | exact Hws].
Qed.

Lemma join_trimmed (l : list pystr) :
  Forall (fun w => w <> [] /\ trimmed w) l -> trimmed (join_with nl l).
Proof.
  intros H. destruct l as [|w ws]; [exact I|].
  inversion H as [|? ? [Hw Ht] Hws]; subst.
  destruct w as [|c t]; [contradiction|].
  change (join_with nl ((c :: t) :: ws))
    with (c :: (t ++ List.concat (List.map (fun x => nl :: x) ws))).
  split; [apply Ht|].
  change (c :: (t ++ List.concat (List.map (fun x => nl :: x) ws)))
    with ((c :: t) ++ List.concat (List.map (fun x => nl :: x) ws)).
  destruct ws as [|w' ws].
  - change (List.concat (List.map (fun x => nl :: x) [])) with (@nil Z).
    rewrite app_nil_r. apply Ht.
  - rewrite last_app_nonempty by (simpl; discriminate).
    apply join_tail_last; [discriminate | exact Hws].
Qed.

Lemma forallb_lstrip (f : Z -> bool) (s : pystr) :
  forallb f s = true -> forallb f (lstrip s) = true.
Proof.
  intros H. destruct (lstrip_spec s) as (p & Hs & _).
  rewrite Hs, forallb_app in H. apply andb_true_iff in H. apply H.
Qed.

Lemma forallb_strip (f : Z -> bool) (s : pystr) :
  forallb f s = true -> forallb f (strip s) = true.
Proof.
  intros H. unfold strip, rstrip. rewrite forallb_rev.
  apply forallb_lstrip. rewrite forallb_rev. apply forallb_lstrip. exact H.
Qed.

Lemma split_on_run (w : pystr) : forall cur r,
  forallb is_dot w = true -> split_on nl cur (w ++ r) = split_on nl (cur ++ w) r.
Proof.
  induction w as [|c w IH]; intros cur r H; simpl.
  - rewrite app_nil_r. reflexivity.
  - simpl in H. apply andb_true_iff in H as [Hc Hw].
    unfold is_dot in Hc. apply negb_true_iff in Hc. rewrite Hc.
    rewrite IH by exact Hw. rewrite <- app_assoc. reflexivity.
Qed.

Lemma split_on_joined (ws : list pystr) : forall cur,
  Forall (fun w => forallb is_dot w = true) ws ->
  split_on nl cur (List.concat (List.map (fun x => nl :: x) ws)) = cur :: ws.
Proof.
  induction ws as [|w ws IH]; intros cur H; [reflexivity|].
  inversion H as [|? ? Hw Hws]; subst. simpl.
  rewrite split_on_run by exact Hw. simpl.
  rewrite IH by exact Hws. reflexivity.
Qed.

Lemma lines_of_extracted_text (doc : docx.Document) :
  Forall (fun t => forallb is_dot t = true) (docx.paragraphs doc) ->
  full_text (docx.paragraphs doc) <> [] ->
  lines_of (_extract_all_text doc) = full_text (docx.paragraphs doc).
Proof.
  intros Hnl Hne.
  assert (Forall (fun w => forallb is_dot w = true) (full_text (docx.paragraphs doc))) as Hw.
  { eapply Forall_impl; [apply full_text_pieces|].
    intros w (_ & _ & t & Hin & ->). apply forallb_strip.
    rewrite Forall_forall in Hnl. apply Hnl. apply list_elem_of_In. exact Hin. }
  unfold lines_of, _extract_all_text.
  destruct (full_text (docx.paragraphs doc)) as [|w ws]; [contradiction|].
  inversion Hw as [|? ? Hw1 Hws]; subst. simpl.
  rewrite split_on_run by exact Hw1. simpl. apply split_on_joined. exact Hws.
Qed.

Lemma full_text_fixed (l : list pystr) :
  Forall (fun w => w <> [] /\ trimmed w) l -> full_text l = l.
Proof.
  induction 1 as [|w l [Hne Ht] _ IH]; [reflexivity|].
  simpl. rewrite (strip_of_trimmed w Ht), IH. destruct w; [contradiction | reflexivity].
Qed.

Section OpenedDocument.
Variable ieq : Z -> Z -> bool.
Variable clean_text : pystr -> pystr.
Variable parse_number : pystr -> float.

(** X1. A paragraph of whitespace only, anywhere in the document, leaves
    the extracted text as it is without that paragraph. *)
Theorem blank_paragraph_ignored (before after : list pystr) (blank : pystr)
    (tbls : list (list (list pystr))) :
  forallb uni_isspace blank = true ->
  _extract_all_text {| docx.paragraphs := before ++ blank :: after; docx.tables := tbls |}
  = _extract_all_text {| docx.paragraphs := before ++ after; docx.tables := tbls |}.
Proof.
  intros H. unfold _extract_all_text. simpl.
  rewrite !full_text_app. simpl. rewrite (proj1 (strip_blank blank) H). reflexivity.
Qed.

(** X2. The extracted text never starts and never ends with whitespace, and
    it is empty exactly when every paragraph is whitespace only. *)
Theorem extracted_text_trimmed (doc : docx.Document) :
  trimmed (_extract_all_text doc)
  /\ (_extract_all_text doc = []
      <-> Forall (fun t => forallb uni_isspace t = true) (docx.paragraphs doc)).
Proof.
  unfold _extract_all_text. split.
  - apply join_trimmed. eapply Forall_impl; [apply full_text_pieces|].
    intros w (Hne & Ht & _). split; assumption.
  - generalize (docx.paragraphs doc) as l. intros l. split.
    + intros H. induction l as [|t l IH]; [constructor|]. simpl in H.
      destruct (strip t) as [|c s] eqn:E; [|discriminate H].
      constructor; [apply strip_blank; exact E | exact (IH H)].
    + intros H. induction H as [|t l Ht _ IH]; [reflexivity|].
      simpl. rewrite (proj1 (strip_blank t) Ht). exact IH.
Qed.

(** X3. When no paragraph holds a line feed and some paragraph is not
    blank, the lines of the extracted text are the stripped paragraphs that
    are not blank, in the order of the document. *)
Theorem extracted_text_lines (doc : docx.Document) :
  Forall (fun t => forallb is_dot t = true) (docx.paragraphs doc) ->
  full_text (docx.paragraphs doc) <> [] ->
  lines_of (_extract_all_text doc) = full_text (docx.paragraphs doc)
  /\ Forall (fun w => w <> [] /\ trimmed w
                      /\ exists t, In t (docx.paragraphs doc) /\ w = strip t)
       (full_text (docx.paragraphs doc)).
Proof.
  intros Hnl Hne. split; [|apply full_text_pieces].
  apply lines_of_extracted_text; assumption.
Qed.

(** X4. The extracted tables have the shape of the tables of the document,
    every cell is the stripped cell of the document and neither starts nor
    ends with whitespace, and extracting once more changes nothing. *)
Theorem extracted_tables_stripped (doc : docx.Document) :
  Forall2 (Forall2 (Forall2 (fun raw cell => cell = strip raw /\ trimmed cell)))
    (docx.tables doc) (_extract_tables doc)
  /\ _extract_tables {| docx.paragraphs := docx.paragraphs doc;
                        docx.tables := _extract_tables doc |}
     = _extract_tables doc.
Proof.
  unfold _extract_tables. simpl. split.
  - induction (docx.tables doc) as [|table ts IHt]; simpl; constructor; [|exact IHt].
    induction table as [|row rs IHr]; simpl; constructor; [|exact IHr].
    induction row as [|cell cs IHc]; simpl; constructor; [|exact IHc].
    split; [reflexivity | apply strip_trimmed].
  - rewrite List.map_map. apply List.map_ext. intros table.
    rewrite List.map_map. apply List.map_ext. intros row.
    rewrite List.map_map. apply List.map_ext. intros cell.
    apply strip_of_trimmed, strip_trimmed.
Qed.

Lemma parse_reads_text_only (a b : DocxParser) :
  text_content a = text_content b ->
  parse_full_document ieq clean_text parse_number a
  = parse_full_document ieq clean_text parse_number b.
Proof.
  intros H.
  assert (forall kws, _find_value_after_keyword ieq clean_text a kws None
                      = _find_value_after_keyword ieq clean_text b kws None) as Hv.
  { intros kws. induction kws as [|k kws IH]; simpl; [reflexivity|].
    rewrite H, IH. reflexivity. }
  assert (forall kws, _find_number_after_keyword ieq clean_text parse_number a kws
                      = _find_number_after_keyword ieq clean_text parse_number b kws) as Hn.
  { intros kws. unfold _find_number_after_keyword. rewrite Hv. reflexivity. }
  unfold parse_full_document, extract_customer_info, extract_loan_info,
    extract_collateral_info, extract_financial_info.
  rewrite !Hv, !Hn, H. reflexivity.
Qed.

(** X5. The parsed document is decided by the stripped paragraphs that are
    not blank: blank paragraphs, whitespace around a paragraph and the
    tables, which no extractor reads, do not change it. *)
Theorem parse_decided_by_paragraph_text (d1 d2 : docx.Document) :
  full_text (docx.paragraphs d1) = full_text (docx.paragraphs d2) ->
  parse_full_document ieq clean_text parse_number (__init__ d1)
  = parse_full_document ieq clean_text parse_number (__init__ d2).
Proof.
  intros H. apply parse_reads_text_only. unfold __init__, _extract_all_text. simpl.
  rewrite H. reflexivity.
Qed.
(** X6. When no paragraph holds a line feed, a document rebuilt from the
    lines of the extracted text extracts to the same text, and so parses
    to the same result. *)
Theorem extracted_text_round_trip (doc : docx.Document) (tbls : list (list (list pystr))) :
  Forall (fun t => forallb is_dot t = true) (docx.paragraphs doc) ->
  _extract_all_text {| docx.paragraphs := lines_of (_extract_all_text doc);
                       docx.tables := tbls |}
  = _extract_all_text doc
  /\ parse_full_document ieq clean_text parse_number
       (__init__ {| docx.paragraphs := lines_of (_extract_all_text doc);
                    docx.tables := tbls |})
     = parse_full_document ieq clean_text parse_number (__init__ doc).
Proof.
  intros Hnl.
  assert (full_text (lines_of (_extract_all_text doc)) = full_text (docx.paragraphs doc))
    as Hfix.
  { destruct (full_text (docx.paragraphs doc)) as [|w ws] eqn:E.
    - unfold _extract_all_text. rewrite E. reflexivity.
    - rewrite (lines_of_extracted_text doc Hnl) by (rewrite E; discriminate).
      rewrite E. apply full_text_fixed. rewrite <- E.
      eapply Forall_impl; [apply full_text_pieces|].
      intros x (Hne & Ht & _). split; assumption. }
  split.
  - unfold _extract_all_text at 1. simpl. rewrite Hfix. reflexivity.
  - apply parse_reads_text_only. unfold __init__, _extract_all_text at 1 3. simpl.
    rewrite Hfix. reflexivity.
Qed.
End OpenedDocument.

(** ** Where a label finds a value *)

(** [$] or a line feed after the captured text [g1], as in the pattern of
    line 56 *)
Definition line_end (g1 rest : pystr) : option pystr :=
  first_of (line_feed (fun _ => Some g1) rest) (dollar (fun _ => Some g1) rest).

(** the pattern of line 56 after the label: [\s*[:：]?\s*(.+?)(?:\n|$)] *)
Definition value_regex (s : pystr) : option pystr :=
  star uni_isspace (opt is_colon (star uni_isspace (lazy_plus is_dot [] line_end))) s.

(** the label [kw], in any case, stands at position [i] of [text], and [r]
    is the text after it *)
Definition label_at (ieq : Z -> Z -> bool) (kw text : pystr) (i : nat) (r : pystr) : Prop :=
  (i <= length text)%nat /\ exists lab, drop i text = lab ++ r /\ same_label ieq kw lab.

Lemma lits_ic_same_label {R : Type} (ieq : Z -> Z -> bool) (kw : pystr) :
  forall lab (k : pystr -> option R) r,
  same_label ieq kw lab -> lits_ic ieq kw k (lab ++ r) = k r.
Proof.
  induction kw as [|c kw IH]; intros lab k r H; inversion H as [|? x ? lab' Hc Hl]; subst.
  - reflexivity.
  - simpl. rewrite Hc. apply IH. exact Hl.
Qed.

Lemma star_skip {R : Type} cls (k : pystr -> option R) s :
  is_Some (k s) -> is_Some (star cls k s).
Proof.
  intros [r H]. destruct s as [|x s]; simpl; [eauto|].
  destruct (cls x); [|eauto].
  destruct (star cls k s); simpl; eauto.
Qed.

Lemma star_complete {R : Type} cls (k : pystr -> option R) : forall w rest,
  forallb cls w = true -> is_Some (k rest) -> is_Some (star cls k (w ++ rest)).
Proof.
  induction w as [|c w IH]; intros rest Hw Hk.
  - apply star_skip. exact Hk.
  - simpl in Hw. apply andb_true_iff in Hw as [Hc Hw]. simpl. rewrite Hc.
    destruct (IH rest Hw Hk) as [r Hr]. rewrite Hr. simpl. eauto.
Qed.

Lemma star_greedy {R : Type} cls (k : pystr -> option R) : forall w rest r,
  forallb cls w = true -> run_ends cls rest -> k rest = Some r ->
  star cls k (w ++ rest) = Some r.
Proof.
  induction w as [|c w IH]; intros rest r Hw Hrest Hk.
  - destruct Hrest as [-> | (c & rest' & -> & Hc)]; simpl; [exact Hk|].
    rewrite Hc. exact Hk.
  - simpl in Hw. apply andb_true_iff in Hw as [Hc Hw]. simpl. rewrite Hc.
    rewrite (IH rest r Hw Hrest Hk). reflexivity.
Qed.

Lemma opt_skip {R : Type} cls (k : pystr -> option R) s :
  is_Some (k s) -> is_Some (opt cls k s).
Proof.
  intros [r H]. destruct s as [|x s]; simpl; [eauto|].
  destruct (cls x); [|eauto].
  destruct (k s); simpl; eauto.
Qed.

Lemma line_end_cons (g1 : pystr) (y : Z) (t : pystr) :
  line_end g1 (y :: t) = if is_dot y then None else Some g1.
Proof.
  unfold line_end, line_feed, dollar, is_dot.
  destruct (y =? nl); simpl; [reflexivity|]. destruct t; reflexivity.
Qed.

(** [(.+?)(?:\n|$)] at a character that is not a line feed captures what is
    left of the line. *)
Lemma lazy_plus_line : forall t c acc,
  is_dot c = true ->
  lazy_plus is_dot acc line_end (c :: t) = Some (acc ++ rest_of_line (c :: t)).
Proof.
  induction t as [|y t IH]; intros c acc Hc.
  - simpl. rewrite Hc. reflexivity.
  - change (lazy_plus is_dot acc line_end (c :: y :: t))
      with (if is_dot c
            then first_of (line_end (acc ++ [c]) (y :: t))
                          (lazy_plus is_dot (acc ++ [c]) line_end (y :: t))
            else None).
    rewrite Hc, line_end_cons.
    change (rest_of_line (c :: y :: t))
      with (if is_dot c then c :: rest_of_line (y :: t) else []).
    rewrite Hc. destruct (is_dot y) eqn:Hy.
    + unfold first_of. rewrite (IH y (acc ++ [c]) Hy), <- app_assoc. reflexivity.
    + simpl. rewrite Hy. reflexivity.
Qed.

Lemma isspace_of_line_feed (c : Z) : is_dot c = false -> uni_isspace c = true.
Proof.
  unfold is_dot. intros H. apply negb_false_iff, Z.eqb_eq in H. subst c. reflexivity.
Qed.

Lemma is_dot_of_visible (c : Z) : uni_isspace c = false -> is_dot c = true.
Proof.
  intros H. destruct (is_dot c) eqn:E; [reflexivity|].
  rewrite (isspace_of_line_feed c E) in H. discriminate.
Qed.

Lemma visible_colon (c : Z) : is_colon c = true -> uni_isspace c = false.
Proof.
  unfold is_colon. intros H. apply orb_true_iff in H as [H | H];
    apply Z.eqb_eq in H; subst c; reflexivity.
Qed.

Lemma first_dot (r : pystr) :
  existsb is_dot r = true ->
  exists feeds c t, r = feeds ++ c :: t /\ forallb uni_isspace feeds = true
                    /\ is_dot c = true.
Proof.
  induction r as [|x r IH]; simpl; intros H; [discriminate|].
  destruct (is_dot x) eqn:E.
  - exists [], x, r. auto.
  - destruct (IH H) as (feeds & c & t & -> & Hf & Hc).
    exists (x :: feeds), c, t. simpl. rewrite (isspace_of_line_feed x E), Hf. auto.
Qed.

(** After the label the pattern needs one character that is not a line
    feed, and nothing more. *)
Lemma value_regex_Some (r : pystr) :
  is_Some (value_regex r) <-> existsb is_dot r = true.
Proof.
  unfold value_regex. split.
  - intros [g H].
    destruct (star_Some _ _ _ _ H) as (sep1 & r1 & -> & _ & H1).
    destruct (opt_Some _ _ _ _ H1) as (col & r2 & -> & _ & H2).
    destruct (star_Some _ _ _ _ H2) as (sep2 & r3 & -> & _ & H3).
    destruct (lazy_plus_Some _ _ _ _ _ H3) as (g' & rest & Hne & -> & Hdot & _).
    rewrite !existsb_app. destruct g' as [|c g']; [contradiction|].
    simpl in Hdot. apply andb_true_iff in Hdot as [Hc _]. simpl. rewrite Hc.
    rewrite !orb_true_r. reflexivity.
  - intros H. destruct (first_dot r H) as (feeds & c & t & -> & Hf & Hc).
    apply star_complete; [exact Hf|]. apply opt_skip, star_skip.
    rewrite (lazy_plus_line t c [] Hc). eauto.
Qed.

Lemma keyword_regex_label (ieq : Z -> Z -> bool) (kw lab r : pystr) :
  same_label ieq kw lab -> keyword_regex ieq kw (lab ++ r) = value_regex r.
Proof.
  intros H. unfold keyword_regex.
  rewrite (lits_ic_same_label ieq kw lab _ r H). reflexivity.
Qed.

Lemma occurs_label_followed (ieq : Z -> Z -> bool) (kw text : pystr) (i : nat) :
  (exists g, occurs_at ieq kw text i g)
  <-> exists r, label_at ieq kw text i r /\ existsb is_dot r = true.
Proof.
  split.
  - intros (g & Hi & Hm). unfold keyword_regex in Hm.
    destruct (lits_ic_Some _ _ _ _ _ Hm) as (lab & rest & Hd & Hl & Hk).
    exists rest. split; [split; eauto|].
    apply value_regex_Some. exists g. exact Hk.
  - intros (r & (Hi & lab & Hd & Hl) & He).
    apply value_regex_Some in He as [g Hg].
    exists g. split; [exact Hi|]. rewrite Hd, (keyword_regex_label ieq kw lab r Hl). exact Hg.
Qed.

Lemma matches_label_followed (ieq : Z -> Z -> bool) (kw text : pystr) :
  matches ieq kw text <-> exists i r, label_at ieq kw text i r /\ existsb is_dot r = true.
Proof.
  unfold matches. split.
  - intros (i & g & H). exists i. apply occurs_label_followed. eauto.
  - intros (i & r & H). exists i. apply occurs_label_followed. eauto.
Qed.

Lemma trimmed_tail_has_dot (text : pystr) (i : nat) (lab r : pystr) :
  trimmed text -> drop i text = lab ++ r -> r <> [] -> existsb is_dot r = true.
Proof.
  intros Ht Hd Hr.
  destruct (@exists_last Z r Hr) as (q & z & ->).
  assert (text = (take i text ++ lab ++ q) ++ [z]) as Htext.
  { rewrite <- (take_drop i text) at 1. rewrite Hd, <- !app_assoc. reflexivity. }
  destruct text as [|c t].
  { apply (f_equal (@length Z)) in Htext. rewrite length_app in Htext.
    simpl in Htext. lia. }
  destruct Ht as [_ Hl]. rewrite Htext, last_last in Hl.
  rewrite existsb_app. simpl. rewrite (is_dot_of_visible z Hl), orb_true_r. reflexivity.
Qed.

Lemma same_label_app (ieq : Z -> Z -> bool) (a b lab : pystr) :
  same_label ieq (a ++ b) lab ->
  exists la lb, lab = la ++ lb /\ same_label ieq a la /\ same_label ieq b lb.
Proof.
  unfold same_label. intros H. apply Forall2_app_inv_l in H.
  destruct H as (la & lb & Ha & Hb & ->). eauto.
Qed.

(** A label that holds another one matches only where the other one does. *)
Lemma occurs_sublabel (ieq : Z -> Z -> bool) (pre k post text : pystr) (i : nat) (g : pystr) :
  occurs_at ieq (pre ++ k ++ post) text i g ->
  exists g', occurs_at ieq k text (i + length pre) g'.
Proof.
  intros H. apply occurs_label_followed.
  assert (exists g0, occurs_at ieq (pre ++ k ++ post) text i g0) as H' by eauto.
  apply occurs_label_followed in H'. destruct H' as (r & (Hi & lab & Hd & Hl) & He).
  destruct (same_label_app _ _ _ _ Hl) as (lpre & l1 & -> & Hpre & Hl1).
  destruct (same_label_app _ _ _ _ Hl1) as (lk & lpost & -> & Hk & Hpost).
  rewrite (Forall2_length _ _ _ Hpre).
  exists (lpost ++ r). split.
  - split.
    + apply (f_equal (@length Z)) in Hd. rewrite length_drop, !length_app in Hd. lia.
    + exists lk. split; [|exact Hk].
      rewrite <- drop_drop, Hd, <- !app_assoc, drop_app_length.
      reflexivity.
  - rewrite existsb_app, He, orb_true_r. reflexivity.
Qed.

Lemma matches_sublabel (ieq : Z -> Z -> bool) (pre k post text : pystr) :
  matches ieq (pre ++ k ++ post) text -> matches ieq k text.
Proof.
  intros (i & g & H). destruct (occurs_sublabel _ _ _ _ _ _ _ H) as (g' & H').
  exists (i + length pre)%nat, g'. exact H'.
Qed.

(** The value after a label, a run of whitespace, a colon or none, and a
    run of whitespace: what is left of the line from the first visible
    character on. *)
Lemma value_regex_captures (sep1 col sep2 : pystr) (x : Z) (t : pystr) :
  forallb uni_isspace sep1 = true -> forallb uni_isspace sep2 = true ->
  (col = [] /\ is_colon x = false) \/ (exists c, col = [c] /\ is_colon c = true) ->
  uni_isspace x = false ->
  value_regex (sep1 ++ col ++ sep2 ++ x :: t) = Some (rest_of_line (x :: t)).
Proof.
  intros H1 H2 Hcol Hx. unfold value_regex.
  assert (run_ends uni_isspace (x :: t)) as Hend by (right; eauto).
  assert (star uni_isspace (lazy_plus is_dot [] line_end) (x :: t)
          = Some (rest_of_line (x :: t))) as Hval.
  { apply (star_greedy _ _ [] (x :: t)); [reflexivity | exact Hend|].
    apply (lazy_plus_line t x []). apply is_dot_of_visible. exact Hx. }
  destruct Hcol as [[-> Hc] | (c & -> & Hc)].
  - change (sep1 ++ [] ++ sep2 ++ x :: t) with (sep1 ++ sep2 ++ x :: t).
    rewrite app_assoc. apply star_greedy; [|exact Hend|].
    + rewrite forallb_app, H1, H2. reflexivity.
    + simpl opt. rewrite Hc. exact Hval.
  - change (sep1 ++ [c] ++ sep2 ++ x :: t) with (sep1 ++ c :: sep2 ++ x :: t).
    apply star_greedy; [exact H1 | right; exists c; eexists; split;
                                   [reflexivity | apply visible_colon; exact Hc] |].
    simpl opt. rewrite Hc.
    rewrite (star_greedy _ _ sep2 (x :: t) _ H2 Hend
               (lazy_plus_line t x [] (is_dot_of_visible x Hx))).
    reflexivity.
Qed.

(** A label of the list that holds an earlier label of the list never
    decides the lookup. *)
Lemma find_value_drop_dead (ieq : Z -> Z -> bool) (clean_text : pystr -> pystr)
    (self : DocxParser) (k1 k2 : pystr) :
  (matches ieq k2 (text_content self) -> matches ieq k1 (text_content self)) ->
  forall mid after before,
  _find_value_after_keyword ieq clean_text self (before ++ k1 :: mid ++ k2 :: after) None
  = _find_value_after_keyword ieq clean_text self (before ++ k1 :: mid ++ after) None.
Proof.
  intros Hsub mid after before.
  induction before as [|b before IH]; simpl.
  - destruct (re_search (keyword_regex ieq k1) (text_content self)) eqn:E1; [reflexivity|].
    induction mid as [|m mid IHm]; simpl.
    + rewrite (proj2 (search_fails_without_match ieq k2 (text_content self))); [reflexivity|].
      intros H2. apply Hsub in H2.
      apply (proj1 (search_fails_without_match ieq k1 (text_content self)) E1). exact H2.
    + rewrite IHm. reflexivity.
  - rewrite IH. reflexivity.
Qed.

Lemma find_number_drop_dead (ieq : Z -> Z -> bool) (clean_text : pystr -> pystr)
    (parse_number : pystr -> float) (self : DocxParser) (k1 k2 : pystr) :
  (matches ieq k2 (text_content self) -> matches ieq k1 (text_content self)) ->
  forall mid after before,
  _find_number_after_keyword ieq clean_text parse_number self
    (before ++ k1 :: mid ++ k2 :: after)
  = _find_number_after_keyword ieq clean_text parse_number self (before ++ k1 :: mid ++ after).
Proof.
  intros Hsub mid after before. unfold _find_number_after_keyword.
  rewrite (find_value_drop_dead ieq clean_text self k1 k2 Hsub). reflexivity.
Qed.

(** What ends at the end of a line of a text is the tail of one of its
    lines. *)
Lemma line_tail (g rest : pystr) :
  forallb is_dot g = true -> (rest = [] \/ exists rest', rest = nl :: rest') ->
  forall a cur, exists line pre,
    In line (split_on nl cur (a ++ g ++ rest)) /\ line = pre ++ g.
Proof.
  intros Hg Hrest. induction a as [|c a IH]; intros cur.
  - simpl app. rewrite (split_on_run g cur rest Hg).
    exists (cur ++ g), cur. split; [|reflexivity].
    destruct Hrest as [-> | (rest' & ->)]; simpl; left; reflexivity.
  - simpl. destruct (c =? nl).
    + destruct (IH []) as (line & pre & Hin & Hl). exists line, pre.
      split; [right; exact Hin | exact Hl].
    + apply IH.
Qed.


Section LabelOccurrences.
Variable ieq : Z -> Z -> bool.
Variable clean_text : pystr -> pystr.
Variable parse_number : pystr -> float.

(** X7. The pattern of a plain label matches at a position of the text
    exactly when the label, in any case, stands there and at least one
    character other than a line feed comes after it, anywhere in what
    follows; nothing is asked of what stands before the label, which
    may be the middle of a word. *)
Theorem label_matches_where_followed (kw text : pystr) (i : nat) :
  plain_label kw = true ->
  ((exists g, occurs_at ieq kw text i g)
   <-> exists r, label_at ieq kw text i r /\ existsb is_dot r = true)
  /\ (forall lab r, same_label ieq kw lab ->
        (is_Some (keyword_regex ieq kw (lab ++ r)) <-> existsb is_dot r = true)).
Proof.
  intros _. split; [apply occurs_label_followed|].
  intros lab r Hl. rewrite (keyword_regex_label ieq kw lab r Hl). apply value_regex_Some.
Qed.

(** X8. For an opened document the lookup of a list of plain labels finds
    nothing exactly when each label stands nowhere in the extracted text
    but, at most, at its very end. *)
Theorem opened_document_lookup_fails (doc : docx.Document) (keywords : list pystr) :
  Forall (fun kw => plain_label kw = true) keywords ->
  (_find_value_after_keyword ieq clean_text (__init__ doc) keywords None = None
   <-> Forall (fun kw => forall i r,
                 label_at ieq kw (text_content (__init__ doc)) i r -> r = []) keywords).
Proof.
  intros _. rewrite find_value_None. apply Forall_iff. intros kw.
  rewrite matches_label_followed. split.
  - intros Hn i r Hl. destruct r as [|c r]; [reflexivity|]. exfalso. apply Hn.
    exists i, (c :: r). split; [exact Hl|].
    destruct Hl as (_ & lab & Hd & _).
    apply (trimmed_tail_has_dot (_extract_all_text doc) i lab); [|exact Hd | discriminate].
    apply join_trimmed. eapply Forall_impl; [apply full_text_pieces|].
    intros w (Hne & Ht & _). split; assumption.
  - intros H (i & r & Hl & He). rewrite (H i r Hl) in He. discriminate He.
Qed.

(** X9. When the first label of the list that matches stands first in the
    text at some place and is followed there by whitespace, then a colon
    or none, then whitespace, then a visible character, the lookup returns
    the normalised rest of the line that starts at that character. *)
Theorem value_after_label_captured (self : DocxParser) (before : list pystr) (kw : pystr)
    (after : list pystr) (pre lab sep1 col sep2 : pystr) (x : Z) (t : pystr) :
  plain_label kw = true ->
  Forall (fun k => ~ matches ieq k (text_content self)) before ->
  text_content self = pre ++ lab ++ sep1 ++ col ++ sep2 ++ x :: t ->
  same_label ieq kw lab ->
  (forall j g, (j < length pre)%nat -> ~ occurs_at ieq kw (text_content self) j g) ->
  forallb uni_isspace sep1 = true ->
  forallb uni_isspace sep2 = true ->
  (col = [] /\ is_colon x = false) \/ (exists c, col = [c] /\ is_colon c = true) ->
  uni_isspace x = false ->
  _find_value_after_keyword ieq clean_text self (before ++ kw :: after) None
  = Some (clean_text (rest_of_line (x :: t))).
Proof.
  intros _ Hb Htext Hl Hfirst H1 H2 Hcol Hx.
  rewrite find_value_skips by exact Hb.
  apply (find_value_hit ieq clean_text self kw after (length pre)).
  split; [|exact Hfirst]. split.
  - rewrite Htext, length_app. lia.
  - rewrite Htext, drop_app_length, (keyword_regex_label ieq kw lab _ Hl).
    apply value_regex_captures; assumption.
Qed.

(** X10. A label that holds an earlier label of its list is dead: taking it
    out of the list changes neither the text lookup nor the number lookup,
    whatever the text. *)
Theorem label_holding_earlier_label_is_dead (self : DocxParser)
    (before mid after : list pystr) (k pre post : pystr) :
  Forall (fun kw => plain_label kw = true) (before ++ k :: mid ++ (pre ++ k ++ post) :: after) ->
  _find_value_after_keyword ieq clean_text self
    (before ++ k :: mid ++ (pre ++ k ++ post) :: after) None
  = _find_value_after_keyword ieq clean_text self (before ++ k :: mid ++ after) None
  /\ _find_number_after_keyword ieq clean_text parse_number self
       (before ++ k :: mid ++ (pre ++ k ++ post) :: after)
     = _find_number_after_keyword ieq clean_text parse_number self (before ++ k :: mid ++ after).
Proof.
  intros _. split.
  - apply find_value_drop_dead. apply matches_sublabel.
  - apply find_number_drop_dead. apply matches_sublabel.
Qed.

(** X11. Seven labels of the file never decide a field, for any text:
    'Số CCCD' and 'Số CMND' (held back by 'CCCD' and 'CMND'), 'Địa chỉ
    thường trú' (by 'Địa chỉ'), 'Lãi suất vay' and 'Lãi suất cho vay' (by
    'Lãi suất'), 'Loại TSBĐ' (by 'TSBĐ') and 'Tỷ lệ LTV' (by 'LTV'). *)
Theorem vocabulary_dead_labels (self : DocxParser) :
  _find_value_after_keyword ieq clean_text self customer_cccd_keywords None
  = _find_value_after_keyword ieq clean_text self
      [u "CCCD"; u "CMND"; u "Chứng minh nhân dân"] None
  /\ _find_value_after_keyword ieq clean_text self customer_address_keywords None
     = _find_value_after_keyword ieq clean_text self
         [u "Địa chỉ"; u "Nơi cư trú"; u "Chỗ ở"] None
  /\ _find_number_after_keyword ieq clean_text parse_number self interest_rate_keywords
     = _find_number_after_keyword ieq clean_text parse_number self [u "Lãi suất"; u "LS"]
  /\ _find_value_after_keyword ieq clean_text self asset_type_keywords None
     = _find_value_after_keyword ieq clean_text self
         [u "Loại tài sản"; u "Tài sản"; u "TSBĐ"] None
  /\ _find_number_after_keyword ieq clean_text parse_number self ltv_keywords
     = _find_number_after_keyword ieq clean_text parse_number self
         [u "LTV"; u "Tỷ lệ cho vay"].
Proof.
  assert (forall pre k post full,
            full = pre ++ k ++ post ->
            matches ieq full (text_content self) -> matches ieq k (text_content self))
    as Hsub.
  { intros pre k post full ->. apply matches_sublabel. }
  repeat split.
  - transitivity (_find_value_after_keyword ieq clean_text self
                    [u "CCCD"; u "CMND"; u "Số CMND"; u "Chứng minh nhân dân"] None).
    + apply (find_value_drop_dead ieq clean_text self (u "CCCD") (u "Số CCCD")
               (Hsub (u "Số ") (u "CCCD") [] (u "Số CCCD") eq_refl)
               [u "CMND"]
               [u "Số CMND"; u "Chứng minh nhân dân"] []).
    + apply (find_value_drop_dead ieq clean_text self (u "CMND") (u "Số CMND")
               (Hsub (u "Số ") (u "CMND") [] (u "Số CMND") eq_refl)
               [] [u "Chứng minh nhân dân"] [u "CCCD"]).
  - apply (find_value_drop_dead ieq clean_text self (u "Địa chỉ") (u "Địa chỉ thường trú")
             (Hsub [] (u "Địa chỉ") (u " thường trú") (u "Địa chỉ thường trú") eq_refl)
             [] [u "Nơi cư trú"; u "Chỗ ở"] []).
  - transitivity (_find_number_after_keyword ieq clean_text parse_number self
                    [u "Lãi suất"; u "Lãi suất cho vay"; u "LS"]).
    + apply (find_number_drop_dead ieq clean_text parse_number self
               (u "Lãi suất") (u "Lãi suất vay")
               (Hsub [] (u "Lãi suất") (u " vay") (u "Lãi suất vay") eq_refl)
               [] [u "Lãi suất cho vay"; u "LS"] []).
    + apply (find_number_drop_dead ieq clean_text parse_number self
               (u "Lãi suất") (u "Lãi suất cho vay")
               (Hsub [] (u "Lãi suất") (u " cho vay") (u "Lãi suất cho vay") eq_refl)
               [] [u "LS"] []).
  - apply (find_value_drop_dead ieq clean_text self (u "TSBĐ") (u "Loại TSBĐ")
             (Hsub (u "Loại ") (u "TSBĐ") [] (u "Loại TSBĐ") eq_refl)
             [] [] [u "Loại tài sản"; u "Tài sản"]).
  - apply (find_number_drop_dead ieq clean_text parse_number self (u "LTV") (u "Tỷ lệ LTV")
             (Hsub (u "Tỷ lệ ") (u "LTV") [] (u "Tỷ lệ LTV") eq_refl)
             [u "Tỷ lệ cho vay"] [] []).
Qed.
End LabelOccurrences.

Lemma matches_case_variant (ieq : Z -> Z -> bool) (c c' : Z) (k text : pystr) :
  (forall x, ieq c' x = true -> ieq c x = true) ->
  matches ieq (c' :: k) text -> matches ieq (c :: k) text.
Proof.
  intros Hc. rewrite !matches_label_followed.
  intros (i & r & (Hi & lab & Hd & Hl) & He).
  exists i, r. split; [|exact He]. split; [exact Hi|]. exists lab. split; [exact Hd|].
  inversion Hl as [|? x ? lab' Hx Hl']; subst. constructor; [apply Hc; exact Hx | exact Hl'].
Qed.

Lemma float_is_nan (x : float) :
  is_nan x = match Prim2SF x with S754_nan => true | _ => false end.
Proof.
  unfold is_nan. rewrite FloatAxioms.eqb_spec.
  destruct (Prim2SF x) as [s|s| |s m e]; try reflexivity.
  - destruct s; reflexivity.
  - unfold SFeqb, SFcompare. rewrite Z.compare_refl, Pos.compare_cont_refl.
    destruct s; reflexivity.
Qed.

Lemma float_is_infinity (x : float) :
  is_infinity x = match Prim2SF x with S754_infinity _ => true | _ => false end.
Proof.
  unfold is_infinity. rewrite FloatAxioms.eqb_spec, abs_spec.
  change (Prim2SF infinity) with (S754_infinity false).
  destruct (Prim2SF x) as [s|s| |s m e]; reflexivity.
Qed.

(** A finite float whose integer part is 0 lies strictly between -1 and 1. *)
Lemma finite_below_one (x : float) s m e :
  Prim2SF x = S754_finite s m e -> Z.shiftl (Z.pos m) e = 0 ->
  (-1 <? x)%float = true /\ (x <? 1)%float = true.
Proof.
  intros E Hz.
  destruct (valid_finite _ _ _ _ E) as (Hd & He & Hcan).
  assert (e < -52) as Hlt.
  { destruct (Z.le_gt_cases 0 e) as [Hpos | Hneg].
    - rewrite Z.shiftl_mul_pow2 in Hz by lia.
      assert (0 < 2 ^ e) by (apply Z.pow_pos_nonneg; lia). nia.
    - rewrite Z.shiftl_div_pow2 in Hz by lia.
      assert (0 < 2 ^ (- e)) as Hp by (apply Z.pow_pos_nonneg; lia).
      assert (Z.pos m < 2 ^ (- e)) as Hm.
      { apply Z.div_small_iff in Hz; lia. }
      destruct (Z.eq_dec e (-1074)) as [-> | Hne]; [lia|].
      pose proof (digits2_pos_low m) as Hlow. rewrite Hcan in Hlow by lia.
      assert (2 ^ 52 < 2 ^ (- e)) as Hpow by (simpl (53 - 1) in Hlow; lia).
      apply Z.pow_lt_mono_r_iff in Hpow; lia. }
  rewrite !FloatAxioms.ltb_spec, E.
  change (Prim2SF 1) with (S754_finite false 4503599627370496 (-52)).
  change (Prim2SF (-1)) with (S754_finite true 4503599627370496 (-52)).
  unfold SFltb, SFcompare.
  assert ((e ?= -52) = Lt) as C1 by (apply Z.compare_lt_iff; exact Hlt).
  assert ((-52 ?= e) = Gt) as C2 by (apply Z.compare_gt_iff; exact Hlt).
  rewrite C1, C2. destruct s; split; reflexivity.
Qed.

(** The loan term of a returned record is [int] of the resolved lookup. *)
Lemma loan_term_of_record (ieq : Z -> Z -> bool) (clean_text : pystr -> pystr)
    (parse_number : pystr -> float) (self : DocxParser) (d : gmap string PyVal) :
  extract_loan_info ieq clean_text parse_number self = Ok d ->
  exists months,
    py_int (if (_find_number_after_keyword ieq clean_text parse_number self
                  loan_term_keywords =? 0)%float
            then Int 120
            else Float (_find_number_after_keyword ieq clean_text parse_number self
                          loan_term_keywords))
    = Ok months
    /\ d !! "loan_term" = Some (VNum (Int months)).
Proof.
  intros Hd. pose proof (extract_loan_info_term ieq clean_text parse_number self) as Hterm.
  cbv zeta in Hterm. rewrite Hd in Hterm. exact Hterm.
Qed.

Section FurtherFields.
Variable ieq : Z -> Z -> bool.
Variable clean_text : pystr -> pystr.
Variable parse_number : pystr -> float.

(** X12. With a pattern engine for which the literals 'v' and 'n' match
    nothing that 'V' and 'N' do not match, three more labels never decide
    a field: 'Nguồn vốn tự có' (held back by 'Vốn tự có'), 'Công nợ khác'
    and 'Nghĩa vụ nợ khác' (by 'Nợ khác'). *)
Theorem case_folded_dead_labels (self : DocxParser) :
  (forall c, ieq 118 c = true -> ieq 86 c = true) ->
  (forall c, ieq 110 c = true -> ieq 78 c = true) ->
  _find_number_after_keyword ieq clean_text parse_number self equity_keywords
  = _find_number_after_keyword ieq clean_text parse_number self
      [u "Vốn đối ứng"; u "Vốn tự có"; u "Vốn chủ sở hữu"]
  /\ _find_number_after_keyword ieq clean_text parse_number self other_debt_keywords
     = _find_number_after_keyword ieq clean_text parse_number self [u "Nợ khác"].
Proof.
  intros Hv Hn.
  assert (forall pre c c' k post full,
            (forall x, ieq c' x = true -> ieq c x = true) ->
            full = pre ++ (c' :: k) ++ post ->
            matches ieq full (text_content self) ->
            matches ieq (c :: k) (text_content self)) as Hsub.
  { intros pre c c' k post full Hc -> H.
    apply (matches_case_variant ieq c c' k _ Hc). apply (matches_sublabel _ _ _ _ _ H). }
  split.
  - apply (find_number_drop_dead ieq clean_text parse_number self
             (u "Vốn tự có") (u "Nguồn vốn tự có")
             (Hsub (u "Nguồn ") 86 118 (u "ốn tự có") [] (u "Nguồn vốn tự có") Hv eq_refl)
             [] [u "Vốn chủ sở hữu"] [u "Vốn đối ứng"]).
  - transitivity (_find_number_after_keyword ieq clean_text parse_number self
                    [u "Nợ khác"; u "Nghĩa vụ nợ khác"]).
    + apply (find_number_drop_dead ieq clean_text parse_number self
               (u "Nợ khác") (u "Công nợ khác")
               (Hsub (u "Công ") 78 110 (u "ợ khác") [] (u "Công nợ khác") Hn eq_refl)
               [] [u "Nghĩa vụ nợ khác"] []).
    + apply (find_number_drop_dead ieq clean_text parse_number self
               (u "Nợ khác") (u "Nghĩa vụ nợ khác")
               (Hsub (u "Nghĩa vụ ") 78 110 (u "ợ khác") [] (u "Nghĩa vụ nợ khác") Hn eq_refl)
               [] [] []).
Qed.

(** X13. Wherever the collateral label 'Địa chỉ tài sản' matches, the
    customer label 'Địa chỉ' matches too: the customer address is then
    found, and it is read at the first place of the text where 'Địa chỉ'
    matches, which is that place or an earlier one. *)
Theorem collateral_address_feeds_customer_address (self : DocxParser) (j : nat) (g' : pystr) :
  occurs_at ieq (u "Địa chỉ tài sản") (text_content self) j g' ->
  exists i g,
    (i <= j)%nat
    /\ first_match ieq (u "Địa chỉ") (text_content self) i g
    /\ _find_value_after_keyword ieq clean_text self customer_address_keywords None
       = Some (clean_text g)
    /\ extract_customer_info ieq clean_text self !! "address"
       = Some (VStr (py_or (Some (clean_text g)) [])).
Proof.
  intros H.
  destruct (occurs_sublabel ieq [] (u "Địa chỉ") (u " tài sản") _ j g' H) as (g0 & H0).
  rewrite Nat.add_0_r in H0.
  destruct (re_search (keyword_regex ieq (u "Địa chỉ")) (text_content self)) as [g|] eqn:E.
  - apply search_finds_first_match in E. destruct E as (i & Hf).
    assert (_find_value_after_keyword ieq clean_text self customer_address_keywords None
            = Some (clean_text g)) as Hval.
    { apply (find_value_hit ieq clean_text self (u "Địa chỉ") _ i g Hf). }
    exists i, g. split; [|split; [exact Hf | split; [exact Hval|]]].
    + destruct (Nat.le_gt_cases i j) as [Hle | Hgt]; [exact Hle|].
      exfalso. destruct Hf as [_ Hfirst]. exact (Hfirst j g0 Hgt H0).
    + unfold extract_customer_info. rewrite Hval. reflexivity.
  - exfalso. apply search_fails_without_match in E. apply E. exists j, g0. exact H0.
Qed.

(** X14. In an opened document whose paragraphs hold no line feed, a value
    the lookup returns is read from one paragraph: it is the normalised
    form of a non-empty tail of that paragraph, stripped. *)
Theorem located_value_within_paragraph (doc : docx.Document) (keywords : list pystr)
    (v : pystr) :
  Forall (fun kw => plain_label kw = true) keywords ->
  Forall (fun t => forallb is_dot t = true) (docx.paragraphs doc) ->
  _find_value_after_keyword ieq clean_text (__init__ doc) keywords None = Some v ->
  exists t pre g,
    In t (docx.paragraphs doc) /\ strip t = pre ++ g /\ g <> [] /\ v = clean_text g.
Proof.
  intros _ Hnl H.
  destruct (find_value_Some _ _ _ _ _ H) as (before & kw & after & i & g & _ & _ & Hf & ->).
  destruct Hf as [[Hi Hm] _].
  destruct (keyword_regex_shape _ _ _ _ Hm)
    as (lab & sep1 & col & sep2 & rest & Hs & _ & _ & _ & _ & Hne & Hg & Hrest).
  change (text_content (__init__ doc)) with (_extract_all_text doc) in Hs.
  assert (_extract_all_text doc
          = (take i (_extract_all_text doc) ++ lab ++ sep1 ++ col ++ sep2) ++ g ++ rest)
    as Htext.
  { rewrite <- (take_drop i (_extract_all_text doc)) at 1. rewrite Hs, <- !app_assoc.
    reflexivity. }
  destruct (line_tail g rest Hg Hrest
              (take i (_extract_all_text doc) ++ lab ++ sep1 ++ col ++ sep2) [])
    as (line & pre & Hin & Hline).
  rewrite <- Htext in Hin. fold (lines_of (_extract_all_text doc)) in Hin.
  assert (full_text (docx.paragraphs doc) <> []) as Hfull.
  { intros Hnil. unfold _extract_all_text in Htext. rewrite Hnil in Htext.
    apply (f_equal (@length Z)) in Htext. rewrite !length_app in Htext.
    destruct g; [contradiction | simpl in Htext; lia]. }
  rewrite (lines_of_extracted_text doc Hnl Hfull) in Hin.
  pose proof (full_text_pieces (docx.paragraphs doc)) as Hp.
  rewrite Forall_forall in Hp. apply list_elem_of_In in Hin.
  destruct (Hp line Hin) as (_ & _ & t & Ht & Hst).
  exists t, pre, g. split; [exact Ht|]. split; [congruence|]. split; [exact Hne | reflexivity].
Qed.

(** X15. The loan extractor raises OverflowError exactly when the
    loan-term lookup is an infinity and ValueError exactly when it is a
    NaN; the document raises exactly what the loan extractor raises. *)
Theorem loan_extractor_exceptions (self : DocxParser) :
  (extract_loan_info ieq clean_text parse_number self = Raise OverflowError
   <-> is_infinity
         (_find_number_after_keyword ieq clean_text parse_number self loan_term_keywords)
       = true)
  /\ (extract_loan_info ieq clean_text parse_number self = Raise ValueError
      <-> is_nan
            (_find_number_after_keyword ieq clean_text parse_number self loan_term_keywords)
          = true)
  /\ (forall e,
        parse_full_document ieq clean_text parse_number self = Raise e
        <-> extract_loan_info ieq clean_text parse_number self = Raise e).
Proof.
  pose proof (extract_loan_info_term ieq clean_text parse_number self) as Hterm.
  pose proof (parse_full_document_outcome ieq clean_text parse_number self) as Hdoc.
  cbv zeta in Hterm. rewrite float_is_infinity, float_is_nan.
  rewrite float_eqb_zero in Hterm.
  destruct (extract_loan_info ieq clean_text parse_number self) as [d|e].
  - destruct Hterm as (months & Hm & _).
    split; [|split].
    + split; [discriminate|]. intros Hi.
      destruct (Prim2SF _) eqn:E; try discriminate Hi.
      unfold py_int in Hm. rewrite E in Hm. discriminate Hm.
    + split; [discriminate|]. intros Hi.
      destruct (Prim2SF _) eqn:E; try discriminate Hi.
      unfold py_int in Hm. rewrite E in Hm. discriminate Hm.
    + intros e. rewrite Hdoc. split; discriminate.
  - destruct Hterm as [_ Hr]. unfold py_int in Hr.
    split; [|split].
    + destruct (Prim2SF _); try discriminate Hr; injection Hr as <-;
        split; (reflexivity || discriminate).
    + destruct (Prim2SF _); try discriminate Hr; injection Hr as <-;
        split; (reflexivity || discriminate).
    + intros e'. rewrite Hdoc. reflexivity.
Qed.

(** X16. A returned loan record has loan_term 0 only when the loan-term
    lookup is not equal to 0 and lies strictly between -1 and 1. *)
Theorem loan_term_zero_only_for_fraction (self : DocxParser) (d : gmap string PyVal) :
  extract_loan_info ieq clean_text parse_number self = Ok d ->
  d !! "loan_term" = Some (VNum (Int 0)) ->
  let term := _find_number_after_keyword ieq clean_text parse_number self loan_term_keywords in
  (term =? 0)%float = false /\ (-1 <? term)%float = true /\ (term <? 1)%float = true.
Proof.
  intros Hd Hz term.
  destruct (loan_term_of_record ieq clean_text parse_number self d Hd) as (months & Hm & Hl).
  fold term in Hm. rewrite Hl in Hz. injection Hz as ->.
  destruct (term =? 0)%float eqn:E0; [discriminate Hm|].
  split; [reflexivity|].
  rewrite float_eqb_zero in E0. unfold py_int in Hm.
  destruct (Prim2SF term) as [s|s| |s m e] eqn:E; try discriminate.
  injection Hm as Hm. apply (finite_below_one term s m e E).
  destruct s; simpl in Hm; lia.
Qed.

(** X17. The interest rate of a returned loan record and the LTV of the
    collateral record are never equal to 0: a lookup equal to 0 is
    replaced by 8.5 and by 70.0. *)
Theorem rates_never_zero (self : DocxParser) :
  (forall d, extract_loan_info ieq clean_text parse_number self = Ok d ->
     exists rate, d !! "interest_rate" = Some (VNum (Float rate)) /\ (rate =? 0)%float = false)
  /\ exists ltv,
       extract_collateral_info ieq clean_text parse_number self !! "ltv"
       = Some (VNum (Float ltv)) /\ (ltv =? 0)%float = false.
Proof.
  split.
  - intros d Hd. unfold extract_loan_info, bind in Hd.
    destruct (py_int _) as [months|e]; [|discriminate Hd]. injection Hd as <-.
    eexists. split; [reflexivity|].
    destruct (_find_number_after_keyword ieq clean_text parse_number self
                interest_rate_keywords =? 0)%float eqn:E; [reflexivity | exact E].
  - unfold extract_collateral_info. eexists. split; [reflexivity|].
    destruct (_find_number_after_keyword ieq clean_text parse_number self
                ltv_keywords =? 0)%float eqn:E; [reflexivity | exact E].
Qed.
End FurtherFields.

(** ** Examples for the further properties *)

(** A document of three paragraphs, the second blank, and one table. *)
Definition docx_customer : docx.Document :=
  {| docx.paragraphs := [u "  Họ và tên: Nguyễn Văn A "; u "   "; u "CCCD: 012345678901"];
     docx.tables := [[[u " Tài sản "; u "Giá trị"]; [u "Nhà ở"; u " 2.000.000.000 "]]] |}.

(** The same text without the blank paragraph, the outer whitespace and
    the table. *)
Definition docx_customer_bare : docx.Document :=
  {| docx.paragraphs := [u "Họ và tên: Nguyễn Văn A"; u "CCCD: 012345678901"];
     docx.tables := [] |}.

Definition doc_collateral_address : DocxParser :=
  parser_of [u "Địa chỉ tài sản: 12 Lê Lợi"].

Lemma blank_paragraph_ignored_witness :
  forallb uni_isspace (u "   ") = true
  /\ _extract_all_text docx_customer
     = _extract_all_text
         {| docx.paragraphs := [u "  Họ và tên: Nguyễn Văn A "; u "CCCD: 012345678901"];
            docx.tables := docx.tables docx_customer |}.
Proof.
  split; [reflexivity|].
  exact (blank_paragraph_ignored [u "  Họ và tên: Nguyễn Văn A "] [u "CCCD: 012345678901"]
           (u "   ") (docx.tables docx_customer) eq_refl).
Defined.

Lemma extracted_text_lines_witness :
  Forall (fun t => forallb is_dot t = true) (docx.paragraphs docx_customer)
  /\ full_text (docx.paragraphs docx_customer) <> []
  /\ lines_of (_extract_all_text docx_customer)
     = [u "Họ và tên: Nguyễn Văn A"; u "CCCD: 012345678901"]
  /\ lines_of (_extract_all_text docx_customer) = full_text (docx.paragraphs docx_customer)
  /\ Forall (fun w => w <> [] /\ trimmed w
                      /\ exists t, In t (docx.paragraphs docx_customer) /\ w = strip t)
       (full_text (docx.paragraphs docx_customer)).
Proof.
  assert (Forall (fun t => forallb is_dot t = true) (docx.paragraphs docx_customer)) as Hnl
    by (repeat constructor).
  assert (full_text (docx.paragraphs docx_customer) <> []) as Hne
    by (vm_compute; discriminate).
  split; [exact Hnl|]. split; [exact Hne|]. split; [vm_compute; reflexivity|].
  exact (extracted_text_lines docx_customer Hnl Hne).
Defined.

Lemma parse_decided_by_paragraph_text_witness :
  full_text (docx.paragraphs docx_customer) = full_text (docx.paragraphs docx_customer_bare)
  /\ parse_full_document latin_ieq clean_text_spec parse_number_spec (__init__ docx_customer)
     = parse_full_document latin_ieq clean_text_spec parse_number_spec
         (__init__ docx_customer_bare).
Proof.
  assert (full_text (docx.paragraphs docx_customer)
          = full_text (docx.paragraphs docx_customer_bare)) as H by (vm_compute; reflexivity).
  split; [exact H|].
  exact (parse_decided_by_paragraph_text latin_ieq clean_text_spec parse_number_spec
           docx_customer docx_customer_bare H).
Defined.

(** The label "Phone" matches inside the word "iPhone". *)
Lemma label_matches_where_followed_witness :
  plain_label (u "Phone") = true
  /\ occurs_at latin_ieq (u "Phone") (u "iPhone 12") 1 (u "12")
  /\ ((exists g, occurs_at latin_ieq (u "Phone") (u "iPhone 12") 1 g)
      <-> exists r, label_at latin_ieq (u "Phone") (u "iPhone 12") 1 r
                    /\ existsb is_dot r = true)
  /\ (forall lab r, same_label latin_ieq (u "Phone") lab ->
        (is_Some (keyword_regex latin_ieq (u "Phone") (lab ++ r))
         <-> existsb is_dot r = true)).
Proof.
  split; [reflexivity|]. split; [split; [simpl; lia | vm_compute; reflexivity]|].
  exact (label_matches_where_followed latin_ieq (u "Phone") (u "iPhone 12") 1 eq_refl).
Defined.

Lemma opened_document_lookup_fails_witness :
  Forall (fun kw => plain_label kw = true) customer_phone_keywords
  /\ _find_value_after_keyword latin_ieq clean_text_spec (__init__ docx_customer)
       customer_phone_keywords None = None
  /\ (_find_value_after_keyword latin_ieq clean_text_spec (__init__ docx_customer)
        customer_phone_keywords None = None
      <-> Forall (fun kw => forall i r,
                    label_at latin_ieq kw (text_content (__init__ docx_customer)) i r -> r = [])
            customer_phone_keywords).
Proof.
  assert (Forall (fun kw => plain_label kw = true) customer_phone_keywords) as Hplain
    by (repeat constructor).
  split; [exact Hplain|]. split; [vm_compute; reflexivity|].
  exact (opened_document_lookup_fails latin_ieq clean_text_spec docx_customer
           customer_phone_keywords Hplain).
Defined.

Lemma value_after_label_captured_witness :
  _find_value_after_keyword latin_ieq clean_text_spec (__init__ docx_customer)
    customer_name_keywords None
  = Some (u "Nguyễn Văn A").
Proof.
  apply (value_after_label_captured latin_ieq clean_text_spec (__init__ docx_customer)
           [] (u "Họ và tên") [u "Tên khách hàng"; u "Khách hàng"; u "Họ tên"]
           [] (u "Họ và tên") [] [58] [32] 78
           (u "guyễn Văn A" ++ nl :: u "CCCD: 012345678901")).
  - reflexivity.
  - constructor.
  - vm_compute. reflexivity.
  - repeat constructor.
  - intros j g Hj. simpl in Hj. lia.
  - reflexivity.
  - reflexivity.
  - right. exists 58. split; reflexivity.
  - reflexivity.
Defined.

Lemma label_holding_earlier_label_is_dead_witness :
  Forall (fun kw => plain_label kw = true)
    ([] ++ u "CCCD" :: [u "CMND"] ++ (u "Số " ++ u "CCCD" ++ []) :: [u "Số CMND"])
  /\ _find_value_after_keyword latin_ieq clean_text_spec (__init__ docx_customer)
       ([] ++ u "CCCD" :: [u "CMND"] ++ (u "Số " ++ u "CCCD" ++ []) :: [u "Số CMND"]) None
     = _find_value_after_keyword latin_ieq clean_text_spec (__init__ docx_customer)
         ([] ++ u "CCCD" :: [u "CMND"] ++ [u "Số CMND"]) None
  /\ _find_number_after_keyword latin_ieq clean_text_spec parse_number_spec
       (__init__ docx_customer)
       ([] ++ u "CCCD" :: [u "CMND"] ++ (u "Số " ++ u "CCCD" ++ []) :: [u "Số CMND"])
     = _find_number_after_keyword latin_ieq clean_text_spec parse_number_spec
         (__init__ docx_customer) ([] ++ u "CCCD" :: [u "CMND"] ++ [u "Số CMND"]).
Proof.
  assert (Forall (fun kw => plain_label kw = true)
            ([] ++ u "CCCD" :: [u "CMND"] ++ (u "Số " ++ u "CCCD" ++ []) :: [u "Số CMND"]))
    as Hplain by (repeat constructor).
  split; [exact Hplain|].
  exact (label_holding_earlier_label_is_dead latin_ieq clean_text_spec parse_number_spec
           (__init__ docx_customer) [] [u "CMND"] [u "Số CMND"] (u "CCCD") (u "Số ") []
           Hplain).
Defined.

Lemma case_folded_dead_labels_witness :
  (forall c, latin_ieq 118 c = true -> latin_ieq 86 c = true)
  /\ (forall c, latin_ieq 110 c = true -> latin_ieq 78 c = true)
  /\ _find_number_after_keyword latin_ieq clean_text_spec parse_number_spec
       doc_need_and_equity equity_keywords
     = _find_number_after_keyword latin_ieq clean_text_spec parse_number_spec
         doc_need_and_equity [u "Vốn đối ứng"; u "Vốn tự có"; u "Vốn chủ sở hữu"]
  /\ _find_number_after_keyword latin_ieq clean_text_spec parse_number_spec
       doc_need_and_equity other_debt_keywords
     = _find_number_after_keyword latin_ieq clean_text_spec parse_number_spec
         doc_need_and_equity [u "Nợ khác"].
Proof.
  assert (forall c, latin_ieq 118 c = true -> latin_ieq 86 c = true) as Hv
    by (intros c H; exact H).
  assert (forall c, latin_ieq 110 c = true -> latin_ieq 78 c = true) as Hn
    by (intros c H; exact H).
  split; [exact Hv|]. split; [exact Hn|].
  exact (case_folded_dead_labels latin_ieq clean_text_spec parse_number_spec
           doc_need_and_equity Hv Hn).
Defined.

(** The only line of the text is "Địa chỉ tài sản: 12 Lê Lợi": the
    collateral address is "12 Lê Lợi" and the customer address is read from
    the same line. *)
Lemma collateral_address_feeds_customer_address_witness :
  occurs_at latin_ieq (u "Địa chỉ tài sản") (text_content doc_collateral_address) 0
    (u "12 Lê Lợi")
  /\ extract_customer_info latin_ieq clean_text_spec doc_collateral_address !! "address"
     = Some (VStr (u "tài sản: 12 Lê Lợi"))
  /\ exists i g,
       (i <= 0)%nat
       /\ first_match latin_ieq (u "Địa chỉ") (text_content doc_collateral_address) i g
       /\ _find_value_after_keyword latin_ieq clean_text_spec doc_collateral_address
            customer_address_keywords None
          = Some (clean_text_spec g)
       /\ extract_customer_info latin_ieq clean_text_spec doc_collateral_address !! "address"
          = Some (VStr (py_or (Some (clean_text_spec g)) [])).
Proof.
  assert (occurs_at latin_ieq (u "Địa chỉ tài sản") (text_content doc_collateral_address) 0
            (u "12 Lê Lợi")) as H
    by (split; [simpl; lia | vm_compute; reflexivity]).
  split; [exact H|]. split; [vm_compute; reflexivity|].
  exact (collateral_address_feeds_customer_address latin_ieq clean_text_spec
           doc_collateral_address 0 (u "12 Lê Lợi") H).
Defined.

Lemma located_value_within_paragraph_witness :
  Forall (fun kw => plain_label kw = true) customer_name_keywords
  /\ Forall (fun t => forallb is_dot t = true) (docx.paragraphs docx_customer)
  /\ _find_value_after_keyword latin_ieq clean_text_spec (__init__ docx_customer)
       customer_name_keywords None = Some (u "Nguyễn Văn A")
  /\ exists t pre g,
       In t (docx.paragraphs docx_customer) /\ strip t = pre ++ g /\ g <> []
       /\ u "Nguyễn Văn A" = clean_text_spec g.
Proof.
  assert (Forall (fun kw => plain_label kw = true) customer_name_keywords) as Hplain
    by (repeat constructor).
  assert (Forall (fun t => forallb is_dot t = true) (docx.paragraphs docx_customer)) as Hnl
    by (repeat constructor).
  assert (_find_value_after_keyword latin_ieq clean_text_spec (__init__ docx_customer)
            customer_name_keywords None = Some (u "Nguyễn Văn A")) as Hv
    by (vm_compute; reflexivity).
  split; [exact Hplain|]. split; [exact Hnl|]. split; [exact Hv|].
  exact (located_value_within_paragraph latin_ieq clean_text_spec docx_customer
           customer_name_keywords (u "Nguyễn Văn A") Hplain Hnl Hv).
Defined.

Lemma loan_term_zero_only_for_fraction_witness :
  exists d,
    extract_loan_info latin_ieq clean_text_spec parse_number_spec doc_half_month = Ok d
    /\ d !! "loan_term" = Some (VNum (Int 0))
    /\ (_find_number_after_keyword latin_ieq clean_text_spec parse_number_spec
          doc_half_month loan_term_keywords =? 0)%float = false
    /\ (-1 <? _find_number_after_keyword latin_ieq clean_text_spec parse_number_spec
                doc_half_month loan_term_keywords)%float = true
    /\ (_find_number_after_keyword latin_ieq clean_text_spec parse_number_spec
          doc_half_month loan_term_keywords <? 1)%float = true.
Proof.
  assert (is_finite (_find_number_after_keyword latin_ieq clean_text_spec parse_number_spec
                       doc_half_month loan_term_keywords) = true) as Hfin
    by (vm_compute; reflexivity).
  destruct (extract_loan_info_finite latin_ieq clean_text_spec parse_number_spec
              doc_half_month Hfin) as (d & E).
  destruct (loan_term_of_record latin_ieq clean_text_spec parse_number_spec
              doc_half_month d E) as (months & Hm & Hz).
  vm_compute in Hm. injection Hm as <-.
  exists d. split; [exact E|]. split; [exact Hz|].
  exact (loan_term_zero_only_for_fraction latin_ieq clean_text_spec parse_number_spec
           doc_half_month d E Hz).
Defined.

Lemma extracted_text_round_trip_witness :
  Forall (fun t => forallb is_dot t = true) (docx.paragraphs docx_customer)
  /\ _extract_all_text {| docx.paragraphs := lines_of (_extract_all_text docx_customer);
                          docx.tables := [] |}
     = _extract_all_text docx_customer
  /\ parse_full_document latin_ieq clean_text_spec parse_number_spec
       (__init__ {| docx.paragraphs := lines_of (_extract_all_text docx_customer);
                    docx.tables := [] |})
     = parse_full_document latin_ieq clean_text_spec parse_number_spec
         (__init__ docx_customer).
Proof.
  assert (Forall (fun t => forallb is_dot t = true) (docx.paragraphs docx_customer)) as Hnl
    by (repeat constructor).
  split; [exact Hnl|].
  exact (extracted_text_round_trip latin_ieq clean_text_spec parse_number_spec
           docx_customer [] Hnl).
Defined.
